(** * gpu_profile: an OpenCL element-wise addition benchmark

    A shallow embedding of [src/profile/gpu_profile.cpp].  The program is a
    straight line of OpenCL and libc calls, each followed (or not) by a
    status check that terminates the process.  The embedding keeps that
    shape:

    - the outside world (the OpenCL platform, the file system, the clock,
      the contents of uninitialised automatic variables) is a record
      [World] that fixes the answer of every call;
    - the program runs in a small monad [M] that logs every call and every
      [printf] as an [event] and that can stop early ([exit], or undefined
      behaviour);
    - [cl_int] is [Z] (all values stay in the 32-bit range, [|=] is
      [Z.lor]); [cl_ulong] is [Z] with subtraction wrapped at 2^64;
      [float] and [double] are IEEE-754 binary32 and binary64, computed with
      the operations of [SpecFloat]. *)

From Stdlib Require Import ZArith List String Ascii Bool Lia QArith Qabs.
From Stdlib Require Import Floats.SpecFloat.
Import ListNotations.

Local Open Scope string_scope.
Local Open Scope Z_scope.

(** ** Floating point *)

(** [float]: IEEE-754 binary32. *)
Module F32.
Definition prec : Z := 24.
Definition emax : Z := 128.
Definition add : spec_float -> spec_float -> spec_float := SFadd prec emax.
Definition sub : spec_float -> spec_float -> spec_float := SFsub prec emax.
Definition mul : spec_float -> spec_float -> spec_float := SFmul prec emax.
(** [(float) z] for an integer [z], and the literals [1.f], [10000.f]. *)
Definition of_int (z : Z) : spec_float := binary_normalize prec emax z 0 false.
End F32.

(** [double]: IEEE-754 binary64. *)
Module F64.
Definition prec : Z := 53.
Definition emax : Z := 1024.
Definition add : spec_float -> spec_float -> spec_float := SFadd prec emax.
Definition mul : spec_float -> spec_float -> spec_float := SFmul prec emax.
Definition div : spec_float -> spec_float -> spec_float := SFdiv prec emax.
Definition of_int (z : Z) : spec_float := binary_normalize prec emax z 0 false.
(** The implicit promotion of a [float] to [double] (always exact). *)
Definition of_float (f : spec_float) : spec_float :=
  match f with
  | S754_finite s m e => binary_normalize prec emax (cond_Zopp s (Zpos m)) e s
  | _ => f
  end.
(** [a > b] on doubles; false when either side is a NaN. *)
Definition gtb (a b : spec_float) : bool := SFltb b a.
End F64.

(** The exact rational value of a finite float. *)
Definition SF2Q (f : spec_float) : option Q :=
  match f with
  | S754_zero _ => Some 0%Q
  | S754_finite s m e =>
      let mag := match e with
                 | Zneg p => (Zpos m # Pos.pow 2 p)%Q
                 | _ => inject_Z (Zpos m * 2 ^ e)
                 end in
      Some (if s then Qopp mag else mag)
  | _ => None
  end.

(** [f] is a finite float whose value is exactly the integer [z]. *)
Definition represents (f : spec_float) (z : Z) : bool :=
  match SF2Q f with
  | Some q => Qeq_bool q (inject_Z z)
  | None => false
  end.

(** ** Handles, events and the outside world *)

Inductive host_array := input_data | bias_data | output_data.

(** An OpenCL object is identified by the call that created it. *)
Inductive cl_object :=
| obj_device | obj_context | obj_program | obj_kernel | obj_queue
| obj_mem (host_ptr : host_array).

(** A handle ([cl_context], [cl_mem], ...): null, or a live object. *)
Inductive handle := null | live (o : cl_object).

Inductive cl_device_type := CL_DEVICE_TYPE_GPU | CL_DEVICE_TYPE_CPU.

Inductive cl_mem_flag := CL_MEM_READ_ONLY | CL_MEM_COPY_HOST_PTR.

Inductive cl_profiling_info :=
| CL_PROFILING_COMMAND_QUEUED | CL_PROFILING_COMMAND_SUBMIT
| CL_PROFILING_COMMAND_START | CL_PROFILING_COMMAND_END.

Inductive printf_arg :=
| arg_int (z : Z) | arg_ulong (z : Z) | arg_double (f : spec_float)
| arg_str (s : string).

(** One event per library call of the program, in program order. *)
Inductive event :=
| gettimeofday
| clGetPlatformIDs
| clGetDeviceIDs (ty : cl_device_type)
| clCreateContext (device : handle)
| fopen (filename : string)
| fseek
| ftell
| rewind
| fread
| fclose
| clCreateProgramWithSource (ctx : handle) (source : string)
| clBuildProgram (program : handle)
| clGetProgramBuildInfo (program device : handle)
| clCreateCommandQueue (ctx device : handle)
| clCreateKernel (program : handle) (name : string)
| clCreateBuffer (ctx : handle) (flags : list cl_mem_flag) (host_ptr : host_array)
| clSetKernelArg (kernel : handle) (arg_index : Z) (arg_value : handle)
| clEnqueueNDRangeKernel (queue kernel : handle) (global_work_size : Z)
| clWaitForEvents
| clGetEventProfilingInfo (param : cl_profiling_info)
| clEnqueueReadBuffer (queue buffer : handle) (dst : host_array)
| clFinish (queue : handle)
| printf (format : string) (args : list printf_arg)
| clReleaseKernel (h : handle)
| clReleaseMemObject (h : handle)
| clReleaseCommandQueue (h : handle)
| clReleaseProgram (h : handle)
| clReleaseContext (h : handle).

Record timeval := { tv_sec : Z; tv_usec : Z }.

(** Everything the program reads from outside: the status of every OpenCL
    call, the kernel source file, the clocks, the device's answer to the
    read-back, and the indeterminate contents of variables that the
    program reads before writing them. *)
Record World := {
  time_start : timeval;
  time_end : timeval;
  st_GetPlatformIDs : Z;
  st_GetDeviceIDs_gpu : Z;
  st_GetDeviceIDs_cpu : Z;
  st_CreateContext : Z;
  (** [Some text] when [fopen] succeeds, [None] when it returns NULL. *)
  program_file : option string;
  (** The local [status] of [build_program] is read before any assignment. *)
  uninit_status : Z;
  st_CreateProgramWithSource : Z;
  st_BuildProgram : Z;
  build_log : string;
  st_CreateCommandQueue : Z;
  st_CreateKernel : Z;
  st_CreateBuffer : host_array -> Z;
  st_SetKernelArg : Z -> Z;
  st_EnqueueNDRangeKernel : Z;
  profiling : cl_profiling_info -> Z;
  st_EnqueueReadBuffer : Z;
  (** What the blocking read stores into [output_data]. *)
  readback : Z -> spec_float;
  st_Finish : Z;
  (** The contents of the automatic arrays before initialisation. *)
  uninit_floats : host_array -> Z -> spec_float
}.

(** A creating call returns a live object exactly when its status is not
    negative (OpenCL returns NULL together with a negative error code). *)
Definition created (status : Z) (o : cl_object) : handle :=
  if status <? 0 then null else live o.

(** ** The monad: an event log and early termination *)

Inductive halt :=
| exited (code : Z)      (* [exit(code)]: no destructor of [main] runs *)
| undefined_behaviour.   (* [fseek] on a NULL [FILE*] *)

Inductive result (A : Type) :=
| done (a : A)
| halted (h : halt).
Arguments done {A} a.
Arguments halted {A} h.

Definition M (A : Type) : Type := (list event * result A)%type.

Definition ret {A} (a : A) : M A := ([], done a).

(** [log t m]: the events [t], then the run [m]. *)
Definition log {A} (t : list event) (m : M A) : M A :=
  let (t', r) := m in ((t ++ t')%list, r).

Definition bind {A B} (m : M A) (f : A -> M B) : M B :=
  match m with
  | (t, done a) => log t (f a)
  | (t, halted h) => (t, halted h)
  end.

Definition call {A} (e : event) (answer : A) : M A := ([e], done answer).

Definition exit {A} (code : Z) : M A := ([], halted (exited code)).

Definition undefined {A} : M A := ([], halted undefined_behaviour).

Declare Scope prog_scope.
Delimit Scope prog_scope with prog.
Notation "x <- c1 ;; c2" := (bind c1 (fun x => c2))
  (at level 100, c1 at next level, right associativity) : prog_scope.
Notation "c1 ;; c2" := (bind c1 (fun _ => c2))
  (at level 100, right associativity) : prog_scope.
Local Open Scope prog_scope.

(** ** The program *)

Record Runtime := {
  device : handle;
  context : handle;
  program : handle;
  kernel : handle;
  queue : handle;
  input_buffer : handle;
  bias_buffer : handle;
  output_buffer : handle
}.

(** [Runtime runtime{}]: every handle is value-initialised to null. *)
Definition Runtime_init : Runtime :=
  Build_Runtime null null null null null null null null.

Definition set_device (r : Runtime) (h : handle) : Runtime :=
  Build_Runtime h (context r) (program r) (kernel r) (queue r)
    (input_buffer r) (bias_buffer r) (output_buffer r).
Definition set_context (r : Runtime) (h : handle) : Runtime :=
  Build_Runtime (device r) h (program r) (kernel r) (queue r)
    (input_buffer r) (bias_buffer r) (output_buffer r).
Definition set_program (r : Runtime) (h : handle) : Runtime :=
  Build_Runtime (device r) (context r) h (kernel r) (queue r)
    (input_buffer r) (bias_buffer r) (output_buffer r).
Definition set_kernel (r : Runtime) (h : handle) : Runtime :=
  Build_Runtime (device r) (context r) (program r) h (queue r)
    (input_buffer r) (bias_buffer r) (output_buffer r).
Definition set_queue (r : Runtime) (h : handle) : Runtime :=
  Build_Runtime (device r) (context r) (program r) (kernel r) h
    (input_buffer r) (bias_buffer r) (output_buffer r).
Definition set_input_buffer (r : Runtime) (h : handle) : Runtime :=
  Build_Runtime (device r) (context r) (program r) (kernel r) (queue r)
    h (bias_buffer r) (output_buffer r).
Definition set_bias_buffer (r : Runtime) (h : handle) : Runtime :=
  Build_Runtime (device r) (context r) (program r) (kernel r) (queue r)
    (input_buffer r) h (output_buffer r).
Definition set_output_buffer (r : Runtime) (h : handle) : Runtime :=
  Build_Runtime (device r) (context r) (program r) (kernel r) (queue r)
    (input_buffer r) (bias_buffer r) h.

(** [Runtime::~Runtime]. *)
Definition Runtime_destroy (r : Runtime) : M unit :=
  call (clReleaseKernel (kernel r)) tt ;;
  call (clReleaseMemObject (input_buffer r)) tt ;;
  call (clReleaseMemObject (output_buffer r)) tt ;;
  call (clReleaseCommandQueue (queue r)) tt ;;
  call (clReleaseProgram (program r)) tt ;;
  call (clReleaseContext (context r)) tt.

Definition check_status (status : Z) (message : string) : M unit :=
  if status <? 0 then
    call (printf "%s" [arg_str message]) tt ;;
    exit 1
  else ret tt.

Definition ARRAY_SIZE : Z := 100000.
Definition PROGRAM_FILE : string := "add.cl".
Definition KERNEL_FUNC : string := "add".

(** The value of the macro in the Khronos header [cl.h]. *)
Definition CL_DEVICE_NOT_FOUND : Z := -1.

Definition newline : string := String (ascii_of_nat 10) EmptyString.

(** A host array: its elements by index. *)
Definition array := Z -> spec_float.

Definition store (a : array) (i : Z) (v : spec_float) : array :=
  fun j => if j =? i then v else a j.

Section Program.

Variable w : World.

Definition init_device : M handle :=
  (* try to get a platform *)
  status <- call clGetPlatformIDs (st_GetPlatformIDs w) ;;
  (if status <? 0 then
     call (printf "could not get a platform" []) tt ;;
     exit 1
   else ret tt) ;;
  (* try to get gpu device *)
  status <- call (clGetDeviceIDs CL_DEVICE_TYPE_GPU) (st_GetDeviceIDs_gpu w) ;;
  status <- (if status =? CL_DEVICE_NOT_FOUND then
               call (clGetDeviceIDs CL_DEVICE_TYPE_CPU) (st_GetDeviceIDs_cpu w)
             else ret status) ;;
  (if status <? 0 then
     call (printf "no devices found" []) tt ;;
     exit 1
   else ret tt) ;;
  ret (live obj_device).

Definition build_program (ctx device_id : handle) (filename : string)
  : M handle :=
  let status := uninit_status w in
  (* read kernel source into buffer *)
  program_handle <- call (fopen filename) (program_file w) ;;
  check_status status "find opencl kernel failed" ;;
  file <- match program_handle with
          | None => undefined
          | Some text => call fseek text
          end ;;
  program_size <- call ftell (Z.of_nat (String.length file)) ;;
  call rewind tt ;;
  program_buffer <- call fread file ;;
  call fclose tt ;;
  status <- call (clCreateProgramWithSource ctx program_buffer)
                 (st_CreateProgramWithSource w) ;;
  let program := created status obj_program in
  check_status status "create program failed" ;;
  (* build opencl program *)
  status <- call (clBuildProgram program) (st_BuildProgram w) ;;
  (if status <? 0 then
     (* pull opencl build log *)
     call (clGetProgramBuildInfo program device_id) tt ;;
     program_log <- call (clGetProgramBuildInfo program device_id) (build_log w) ;;
     call (printf ("%s" ++ newline) [arg_str program_log]) tt ;;
     exit 1
   else ret tt) ;;
  ret program.

(** [for (int i = 0; i < ARRAY_SIZE; i++)] of the initialisation, with
    [n] iterations left. *)
Fixpoint init_loop (n : nat) (i : Z) (input bias : array) : array * array :=
  match n with
  | O => (input, bias)
  | S n' =>
      let input := store input i (F32.mul (F32.of_int 1) (F32.of_int i)) in
      let bias := store bias i (F32.of_int 10000) in
      init_loop n' (i + 1) input bias
  end.

(** [abs(output - output_data[i]) > 1e5].  The difference is single
    precision.  On the platform of [<OpenCL/cl.h>] the C library headers
    reached through [<string>] declare [abs(float)], so the absolute value
    is single precision too; it is promoted to [double] for the
    comparison with the [double] literal [1e5]. *)
Definition mismatch (output actual : spec_float) : bool :=
  F64.gtb (F64.of_float (SFabs (F32.sub output actual))) (F64.of_int 100000).

(** [for (int i = 0; i < ARRAY_SIZE; ++i)] of the verification, with [n]
    iterations left. *)
Fixpoint verify_loop (n : nat) (i : Z) (input bias output_data : array)
  : M unit :=
  match n with
  | O => ret tt
  | S n' =>
      let output := F32.add (bias i) (input i) in
      (if mismatch output (output_data i) then
         call (printf ("%d %f vs %f " ++ newline)
                 [arg_int i; arg_double (F64.of_float output);
                  arg_double (F64.of_float (output_data i))]) tt ;;
         check_status (-1) "CHECK RESULT FAILED"
       else ret tt) ;;
      verify_loop n' (i + 1) input bias output_data
  end.

Definition elapsed_ms (start end_ : timeval) : spec_float :=
  F64.add (F64.mul (F64.of_int (tv_sec end_ - tv_sec start)) (F64.of_int 1000))
          (F64.div (F64.of_int (tv_usec end_ - tv_usec start)) (F64.of_int 1000)).

Definition main : M Z :=
  (* get the start time *)
  start <- call gettimeofday (time_start w) ;;
  let runtime := Runtime_init in
  (* init device *)
  dev <- init_device ;;
  let runtime := set_device runtime dev in
  (* create context *)
  status <- call (clCreateContext (device runtime)) (st_CreateContext w) ;;
  let runtime := set_context runtime (created status obj_context) in
  check_status status "create context failed" ;;
  prog <- build_program (context runtime) (device runtime) PROGRAM_FILE ;;
  let runtime := set_program runtime prog in
  (* create queue *)
  status <- call (clCreateCommandQueue (context runtime) (device runtime))
                 (st_CreateCommandQueue w) ;;
  let runtime := set_queue runtime (created status obj_queue) in
  check_status status "create command queue failed" ;;
  (* create kernel *)
  status <- call (clCreateKernel (program runtime) KERNEL_FUNC)
                 (st_CreateKernel w) ;;
  let runtime := set_kernel runtime (created status obj_kernel) in
  check_status status "create kernel failed" ;;
  (* init input data *)
  let arrays :=
    init_loop (Z.to_nat ARRAY_SIZE) 0
      (uninit_floats w input_data) (uninit_floats w bias_data) in
  let input := fst arrays in
  let bias := snd arrays in
  (* create buffers *)
  status <- call (clCreateBuffer (context runtime)
                    [CL_MEM_READ_ONLY; CL_MEM_COPY_HOST_PTR] input_data)
                 (st_CreateBuffer w input_data) ;;
  let runtime := set_input_buffer runtime (created status (obj_mem input_data)) in
  status <- call (clCreateBuffer (context runtime)
                    [CL_MEM_READ_ONLY; CL_MEM_COPY_HOST_PTR] bias_data)
                 (st_CreateBuffer w bias_data) ;;
  let runtime := set_bias_buffer runtime (created status (obj_mem bias_data)) in
  status <- call (clCreateBuffer (context runtime)
                    [CL_MEM_READ_ONLY; CL_MEM_COPY_HOST_PTR] output_data)
                 (st_CreateBuffer w output_data) ;;
  let runtime := set_output_buffer runtime (created status (obj_mem output_data)) in
  check_status status "create buffer failed" ;;
  (* config cl args *)
  status <- call (clSetKernelArg (kernel runtime) 0 (input_buffer runtime))
                 (st_SetKernelArg w 0) ;;
  s1 <- call (clSetKernelArg (kernel runtime) 1 (bias_buffer runtime))
             (st_SetKernelArg w 1) ;;
  let status := Z.lor status s1 in
  s2 <- call (clSetKernelArg (kernel runtime) 2 (output_buffer runtime))
             (st_SetKernelArg w 2) ;;
  let status := Z.lor status s2 in
  check_status status "create kernel failed" ;;
  (* cl gpu time profile *)
  status <- call (clEnqueueNDRangeKernel (queue runtime) (kernel runtime) ARRAY_SIZE)
                 (st_EnqueueNDRangeKernel w) ;;
  call clWaitForEvents tt ;;
  check_status status "clEnqueueNDRangeKernel failed" ;;
  t_queued <- call (clGetEventProfilingInfo CL_PROFILING_COMMAND_QUEUED)
                   (profiling w CL_PROFILING_COMMAND_QUEUED) ;;
  t_submit <- call (clGetEventProfilingInfo CL_PROFILING_COMMAND_SUBMIT)
                   (profiling w CL_PROFILING_COMMAND_SUBMIT) ;;
  t_start <- call (clGetEventProfilingInfo CL_PROFILING_COMMAND_START)
                  (profiling w CL_PROFILING_COMMAND_START) ;;
  t_end <- call (clGetEventProfilingInfo CL_PROFILING_COMMAND_END)
                (profiling w CL_PROFILING_COMMAND_END) ;;
  call (printf ("t_queued at %llu  " ++ newline ++
                "t_start at %llu  " ++ newline ++
                "t_submit at %llu  " ++ newline ++
                "t_end at %llu  " ++ newline ++
                "kernel execute cost %f ns " ++ newline)
          [arg_ulong t_queued; arg_ulong t_start; arg_ulong t_submit;
           arg_ulong t_end;
           arg_double (F64.mul (F64.of_int ((t_end - t_start) mod 2 ^ 64))
                               (F64.of_int 1))]) tt ;;
  (* Read the kernel's output *)
  status <- call (clEnqueueReadBuffer (queue runtime) (output_buffer runtime)
                    output_data)
                 (st_EnqueueReadBuffer w) ;;
  let output := readback w in
  check_status status "clEnqueueReadBuffer failed" ;;
  (* finish opencl *)
  status <- call (clFinish (queue runtime)) (st_Finish w) ;;
  (* get the end time *)
  end_ <- call gettimeofday (time_end w) ;;
  (* Print the total execution time *)
  let elapsed_time := elapsed_ms start end_ in
  call (printf ("cpu all cost %f ms " ++ newline) [arg_double elapsed_time]) tt ;;
  verify_loop (Z.to_nat ARRAY_SIZE) 0 input bias output ;;
  call (printf "ALL PASSED" []) tt ;;
  (* [return 0]: the automatic [runtime] is destroyed *)
  Runtime_destroy runtime ;;
  ret 0.

End Program.

(** ** Vocabulary of the specification *)

Definition nonneg (z : Z) : bool := 0 <=? z.

(** A platform and a device were found. *)
Definition device_found (w : World) : bool :=
  nonneg (st_GetPlatformIDs w) &&
  nonneg (if st_GetDeviceIDs_gpu w =? CL_DEVICE_NOT_FOUND
          then st_GetDeviceIDs_cpu w else st_GetDeviceIDs_gpu w).

(** The kernel source was read and built. *)
Definition program_built (w : World) : bool :=
  nonneg (uninit_status w) &&
  match program_file w with Some _ => true | None => false end &&
  nonneg (st_CreateProgramWithSource w) && nonneg (st_BuildProgram w).

(** Every check up to and including the one after the three
    [clCreateBuffer] calls passed. *)
Definition staged (w : World) : bool :=
  device_found w && nonneg (st_CreateContext w) && program_built w &&
  nonneg (st_CreateCommandQueue w) && nonneg (st_CreateKernel w) &&
  nonneg (st_CreateBuffer w output_data).

(** The combined status of the three [clSetKernelArg] calls. *)
Definition bind_status (w : World) : Z :=
  Z.lor (Z.lor (st_SetKernelArg w 0) (st_SetKernelArg w 1)) (st_SetKernelArg w 2).

Definition bound (w : World) : bool := staged w && nonneg (bind_status w).

Definition dispatched (w : World) : bool :=
  bound w && nonneg (st_EnqueueNDRangeKernel w).

Definition read_back (w : World) : bool :=
  dispatched w && nonneg (st_EnqueueReadBuffer w).

(** The [runtime] of a run that staged its buffers.  Only the status of the
    last [clCreateBuffer] was checked, so the first two handles may be null. *)
Definition runtime_staged (w : World) : Runtime :=
  {| device := live obj_device;
     context := live obj_context;
     program := live obj_program;
     kernel := live obj_kernel;
     queue := live obj_queue;
     input_buffer := created (st_CreateBuffer w input_data) (obj_mem input_data);
     bias_buffer := created (st_CreateBuffer w bias_data) (obj_mem bias_data);
     output_buffer := live (obj_mem output_data) |}.

(** The host arrays after the initialisation loop. *)
Definition host_input (w : World) : array :=
  fst (init_loop (Z.to_nat ARRAY_SIZE) 0
         (uninit_floats w input_data) (uninit_floats w bias_data)).
Definition host_bias (w : World) : array :=
  snd (init_loop (Z.to_nat ARRAY_SIZE) 0
         (uninit_floats w input_data) (uninit_floats w bias_data)).

(** The value the verifier expects at index [i]. *)
Definition expected (w : World) (i : Z) : spec_float :=
  F32.add (host_bias w i) (host_input w i).

Definition trace_staged (w : World) : list event :=
  ([gettimeofday] ++ fst (init_device w) ++
   [clCreateContext (live obj_device)] ++
   fst (build_program w (live obj_context) (live obj_device) PROGRAM_FILE) ++
   [clCreateCommandQueue (live obj_context) (live obj_device);
    clCreateKernel (live obj_program) KERNEL_FUNC;
    clCreateBuffer (live obj_context) [CL_MEM_READ_ONLY; CL_MEM_COPY_HOST_PTR] input_data;
    clCreateBuffer (live obj_context) [CL_MEM_READ_ONLY; CL_MEM_COPY_HOST_PTR] bias_data;
    clCreateBuffer (live obj_context) [CL_MEM_READ_ONLY; CL_MEM_COPY_HOST_PTR] output_data])%list.

Definition trace_bind (w : World) : list event :=
  [clSetKernelArg (live obj_kernel) 0 (input_buffer (runtime_staged w));
   clSetKernelArg (live obj_kernel) 1 (bias_buffer (runtime_staged w));
   clSetKernelArg (live obj_kernel) 2 (output_buffer (runtime_staged w))].

Definition trace_dispatch : list event :=
  [clEnqueueNDRangeKernel (live obj_queue) (live obj_kernel) ARRAY_SIZE;
   clWaitForEvents].

Definition trace_timestamps : list event :=
  [clGetEventProfilingInfo CL_PROFILING_COMMAND_QUEUED;
   clGetEventProfilingInfo CL_PROFILING_COMMAND_SUBMIT;
   clGetEventProfilingInfo CL_PROFILING_COMMAND_START;
   clGetEventProfilingInfo CL_PROFILING_COMMAND_END].

Definition report_timestamps (w : World) : event :=
  let t_queued := profiling w CL_PROFILING_COMMAND_QUEUED in
  let t_submit := profiling w CL_PROFILING_COMMAND_SUBMIT in
  let t_start := profiling w CL_PROFILING_COMMAND_START in
  let t_end := profiling w CL_PROFILING_COMMAND_END in
  printf ("t_queued at %llu  " ++ newline ++
          "t_start at %llu  " ++ newline ++
          "t_submit at %llu  " ++ newline ++
          "t_end at %llu  " ++ newline ++
          "kernel execute cost %f ns " ++ newline)
    [arg_ulong t_queued; arg_ulong t_start; arg_ulong t_submit; arg_ulong t_end;
     arg_double (F64.mul (F64.of_int ((t_end - t_start) mod 2 ^ 64))
                         (F64.of_int 1))].

Definition trace_read : list event :=
  [clEnqueueReadBuffer (live obj_queue) (live (obj_mem output_data)) output_data].

Definition trace_finish (w : World) : list event :=
  [clFinish (live obj_queue); gettimeofday;
   printf ("cpu all cost %f ms " ++ newline)
     [arg_double (elapsed_ms (time_start w) (time_end w))]].

(** Everything a run logs before it starts to compare the results. *)
Definition trace_before_verify (w : World) : list event :=
  (trace_staged w ++ trace_bind w ++ trace_dispatch ++ trace_timestamps ++
   [report_timestamps w] ++ trace_read ++ trace_finish w)%list.

Definition trace_release (w : World) : list event :=
  [clReleaseKernel (live obj_kernel);
   clReleaseMemObject (input_buffer (runtime_staged w));
   clReleaseMemObject (live (obj_mem output_data));
   clReleaseCommandQueue (live obj_queue);
   clReleaseProgram (live obj_program);
   clReleaseContext (live obj_context)].

Definition diagnostic (i : Z) (output actual : spec_float) : event :=
  printf ("%d %f vs %f " ++ newline)
    [arg_int i; arg_double (F64.of_float output); arg_double (F64.of_float actual)].

(** [p i && p (i+1) && ... ] over [n] consecutive indices. *)
Fixpoint all_from (n : nat) (i : Z) (p : Z -> bool) : bool :=
  match n with
  | O => true
  | S n' => p i && all_from n' (i + 1) p
  end.

(** Structural equality of floats. *)
Definition sf_same (a b : spec_float) : bool :=
  match a, b with
  | S754_zero s, S754_zero s' => Bool.eqb s s'
  | S754_infinity s, S754_infinity s' => Bool.eqb s s'
  | S754_nan, S754_nan => true
  | S754_finite s m e, S754_finite s' m' e' =>
      Bool.eqb s s' && (m =? m')%positive && (e =? e')
  | _, _ => false
  end.

(** What the three assignments compute at index [i], as the loop and the
    verifier write them. *)
Definition input_value (i : Z) : spec_float := F32.mul (F32.of_int 1) (F32.of_int i).
Definition bias_value : spec_float := F32.of_int 10000.
Definition expected_value (i : Z) : spec_float := F32.add bias_value (input_value i).

Definition is_finite (f : spec_float) : bool :=
  match f with S754_finite _ _ _ => true | _ => false end.

(** The facts about index [i] that are established by evaluation: the
    input is the float of [i], its value and the value of the sum are the
    exact integers, and against a read-back of [+0.0] the tolerance test
    stays silent up to index 90000. *)
Definition data_check (i : Z) : bool :=
  sf_same (input_value i) (F32.of_int i) &&
  represents (input_value i) i &&
  represents (expected_value i) (i + 10000) &&
  is_finite (expected_value i) &&
  ((90000 <? i) || negb (mismatch (expected_value i) (S754_zero false))).

(** The same world with another answer of the device to the read-back. *)
Definition with_readback (w : World) (r : Z -> spec_float) : World :=
  {| time_start := time_start w;
     time_end := time_end w;
     st_GetPlatformIDs := st_GetPlatformIDs w;
     st_GetDeviceIDs_gpu := st_GetDeviceIDs_gpu w;
     st_GetDeviceIDs_cpu := st_GetDeviceIDs_cpu w;
     st_CreateContext := st_CreateContext w;
     program_file := program_file w;
     uninit_status := uninit_status w;
     st_CreateProgramWithSource := st_CreateProgramWithSource w;
     st_BuildProgram := st_BuildProgram w;
     build_log := build_log w;
     st_CreateCommandQueue := st_CreateCommandQueue w;
     st_CreateKernel := st_CreateKernel w;
     st_CreateBuffer := st_CreateBuffer w;
     st_SetKernelArg := st_SetKernelArg w;
     st_EnqueueNDRangeKernel := st_EnqueueNDRangeKernel w;
     profiling := profiling w;
     st_EnqueueReadBuffer := st_EnqueueReadBuffer w;
     readback := r;
     st_Finish := st_Finish w;
     uninit_floats := uninit_floats w |}.

(** ** Some worlds *)

(** A world in which every call not named by a parameter succeeds. *)
Definition a_world (gpu cpu : Z) (file : option string) (garbage : Z)
    (buffer : host_array -> Z) (arg : Z -> Z) (enqueue finish : Z)
    (answer : Z -> spec_float) : World :=
  {| time_start := {| tv_sec := 1700000000; tv_usec := 250000 |};
     time_end := {| tv_sec := 1700000001; tv_usec := 750000 |};
     st_GetPlatformIDs := 0;
     st_GetDeviceIDs_gpu := gpu;
     st_GetDeviceIDs_cpu := cpu;
     st_CreateContext := 0;
     program_file := file;
     uninit_status := garbage;
     st_CreateProgramWithSource := 0;
     st_BuildProgram := 0;
     build_log := "";
     st_CreateCommandQueue := 0;
     st_CreateKernel := 0;
     st_CreateBuffer := buffer;
     st_SetKernelArg := arg;
     st_EnqueueNDRangeKernel := enqueue;
     profiling := fun p => match p with
                           | CL_PROFILING_COMMAND_QUEUED => 1000
                           | CL_PROFILING_COMMAND_SUBMIT => 2000
                           | CL_PROFILING_COMMAND_START => 3000
                           | CL_PROFILING_COMMAND_END => 4000
                           end;
     st_EnqueueReadBuffer := 0;
     readback := answer;
     st_Finish := finish;
     uninit_floats := fun _ _ => S754_zero false |}.

Definition add_cl : string := "kernel void add(...)".

Definition all_succeed {A} : A -> Z := fun _ => 0.

(** Every call succeeds and the device returns the sums. *)
Definition world_ok : World :=
  a_world 0 0 (Some add_cl) 0 all_succeed all_succeed 0 0 expected_value.

(** No GPU, and the CPU query fails as well. *)
Definition world_no_device : World :=
  a_world CL_DEVICE_NOT_FOUND CL_DEVICE_NOT_FOUND (Some add_cl) 0
    all_succeed all_succeed 0 0 expected_value.

(** [add.cl] cannot be opened; the uninitialised [status] of
    [build_program] happens to hold [garbage]. *)
Definition world_no_file (garbage : Z) : World :=
  a_world 0 0 None garbage all_succeed all_succeed 0 0 expected_value.

(** [add.cl] is there, and the uninitialised [status] holds -1. *)
Definition world_file_negative_garbage : World :=
  a_world 0 0 (Some add_cl) (-1) all_succeed all_succeed 0 0 expected_value.

(** The device returns [+0.0] up to index [last_zero] and the sums after. *)
Definition zeros_up_to (last_zero : Z) (i : Z) : spec_float :=
  if i <=? last_zero then S754_zero false else expected_value i.

(** The first [clCreateBuffer] fails with
    [CL_MEM_OBJECT_ALLOCATION_FAILURE]; the kernel, run without its input,
    leaves the output at zero. *)
Definition world_input_alloc_fails : World :=
  a_world 0 0 (Some add_cl) 0
    (fun a => match a with input_data => -4 | _ => 0 end)
    all_succeed 0 0 (zeros_up_to (ARRAY_SIZE - 1)).

(** [clFinish] fails with [CL_OUT_OF_RESOURCES]. *)
Definition world_finish_fails : World :=
  a_world 0 0 (Some add_cl) 0 all_succeed all_succeed 0 (-5) expected_value.

(** The device returns [+0.0] at every index up to 90000. *)
Definition world_zeros : World :=
  a_world 0 0 (Some add_cl) 0 all_succeed all_succeed 0 0 (zeros_up_to 90000).

(** The device returns the sums, except for the value 1000000 at index 7,
    which is above the expected 10007. *)
Definition one_wrong (i : Z) : spec_float :=
  if i =? 7 then F32.of_int 1000000 else expected_value i.

Definition world_one_wrong : World :=
  a_world 0 0 (Some add_cl) 0 all_succeed all_succeed 0 0 one_wrong.

(** The bind of slot 0 fails with [CL_INVALID_MEM_OBJECT]. *)
Definition world_arg0_fails : World :=
  a_world 0 0 (Some add_cl) 0 all_succeed
    (fun slot => if slot =? 0 then -38 else 0) 0 0 expected_value.

(** [clEnqueueNDRangeKernel] fails with [CL_OUT_OF_RESOURCES]. *)
Definition world_dispatch_fails : World :=
  a_world 0 0 (Some add_cl) 0 all_succeed all_succeed (-5) 0 expected_value.

(** The number of kernel dispatches in a run. *)
Definition dispatches (t : list event) : nat :=
  List.length (filter (fun e => match e with
                           | clEnqueueNDRangeKernel _ _ _ => true
                           | _ => false
                           end) t).

(** The index reported by a diagnostic line. *)
Definition reported_index (e : event) : option Z :=
  match e with
  | printf _ (arg_int i :: _) => Some i
  | _ => None
  end.

(** The process printed [message] through [check_status]. *)
Definition prints (message : string) (e : event) : bool :=
  match e with
  | printf "%s" [arg_str m] => String.eqb m message
  | _ => false
  end.

(** The handles passed to the release calls, in order. *)
Definition released (t : list event) : list handle :=
  flat_map (fun e => match e with
                     | clReleaseKernel h | clReleaseMemObject h
                     | clReleaseCommandQueue h | clReleaseProgram h
                     | clReleaseContext h => [h]
                     | _ => []
                     end) t.

(** The buffers bound to kernel arguments, with their slots. *)
Definition bound_args (t : list event) : list (Z * handle) :=
  flat_map (fun e => match e with
                     | clSetKernelArg _ slot h => [(slot, h)]
                     | _ => []
                     end) t.

(** ** Vocabulary of the further properties *)

(** The state of [shr_1] after [k] steps on the non-negative mantissa [m]:
    the mantissa is the quotient, and the round and sticky bits are clear
    when nothing was lost. *)
Definition shifted (m k : Z) (mrs : shr_record) : Prop :=
  shr_m mrs = m / 2 ^ k /\
  (m mod 2 ^ k = 0 -> shr_r mrs = false /\ shr_s mrs = false).

(** A mantissa [m] at an exponent [e <= 0] whose value [m * 2^e] is at
    most the integer [B]. *)
Definition small (B m e : Z) : Prop := e <= 0 /\ m <= B * 2 ^ (- e).

(** The last step of [binary_round_aux]. *)
Definition pack (prec emax : Z) (s : bool) (m e : Z) : spec_float :=
  match m with
  | Z0 => S754_zero s
  | Zpos p => if e <=? emax - prec then S754_finite s p e else S754_infinity s
  | Zneg _ => S754_nan
  end.

(** The exact difference of two finite floats, as a multiple of
    [2 ^ Z.min ex ey]. *)
Definition exact_difference (sx : bool) (mx : positive) (ex : Z)
    (sy : bool) (my : positive) (ey : Z) : Z :=
  cond_Zopp sx (Zpos mx * 2 ^ (ex - Z.min ex ey)) -
  cond_Zopp sy (Zpos my * 2 ^ (ey - Z.min ex ey)).

(** A non-negative float of at most 24 bits with an exponent in
    [-149 .. 0]. *)
Definition canonical32 (f : spec_float) : Prop :=
  exists m e, f = S754_finite false m e /\ -149 <= e <= 0 /\ Zpos m < 2 ^ 24.

(** The events of a run up to the creation of the context, the program,
    and the queue and kernel. *)
Definition trace_context (w : World) : list event :=
  ([gettimeofday] ++ fst (init_device w) ++
   [clCreateContext (live obj_device)])%list.

Definition trace_program (w : World) : list event :=
  (trace_context w ++
   fst (build_program w (live obj_context) (live obj_device) PROGRAM_FILE))%list.

Definition trace_buffers : list event :=
  [clCreateBuffer (live obj_context) [CL_MEM_READ_ONLY; CL_MEM_COPY_HOST_PTR] input_data;
   clCreateBuffer (live obj_context) [CL_MEM_READ_ONLY; CL_MEM_COPY_HOST_PTR] bias_data;
   clCreateBuffer (live obj_context) [CL_MEM_READ_ONLY; CL_MEM_COPY_HOST_PTR] output_data].

(** The file is missing and the test after [fopen] lets it through. *)
Definition null_stream_reached (w : World) : Prop :=
  device_found w = true /\ 0 <= st_CreateContext w /\
  0 <= uninit_status w /\ program_file w = None.

(** Every element of the read-back is within the tolerance. *)
Definition all_within_tolerance (w : World) : Prop :=
  forall i, 0 <= i < ARRAY_SIZE -> mismatch (expected w i) (readback w i) = false.

(** The same world with other statuses for the calls that [a_world] lets
    succeed. *)
Definition with_statuses (w : World)
    (platform context create_program build queue kernel read : Z)
    (log : string) : World :=
  {| time_start := time_start w;
     time_end := time_end w;
     st_GetPlatformIDs := platform;
     st_GetDeviceIDs_gpu := st_GetDeviceIDs_gpu w;
     st_GetDeviceIDs_cpu := st_GetDeviceIDs_cpu w;
     st_CreateContext := context;
     program_file := program_file w;
     uninit_status := uninit_status w;
     st_CreateProgramWithSource := create_program;
     st_BuildProgram := build;
     build_log := log;
     st_CreateCommandQueue := queue;
     st_CreateKernel := kernel;
     st_CreateBuffer := st_CreateBuffer w;
     st_SetKernelArg := st_SetKernelArg w;
     st_EnqueueNDRangeKernel := st_EnqueueNDRangeKernel w;
     profiling := profiling w;
     st_EnqueueReadBuffer := read;
     readback := readback w;
     st_Finish := st_Finish w;
     uninit_floats := uninit_floats w |}.

(** No OpenCL platform ([CL_PLATFORM_NOT_FOUND_KHR]). *)
Definition world_no_platform : World :=
  with_statuses world_ok (-1001) 0 0 0 0 0 0 "".

(** The context cannot be created ([CL_OUT_OF_HOST_MEMORY]). *)
Definition world_no_context : World :=
  with_statuses world_ok 0 (-6) 0 0 0 0 0 "".

(** The kernel source does not compile ([CL_BUILD_PROGRAM_FAILURE]). *)
Definition world_compile_error : World :=
  with_statuses world_ok 0 0 0 (-11) 0 0 0 "add.cl:1: error: expected ';'".

(** The read-back fails ([CL_OUT_OF_RESOURCES]). *)
Definition world_read_fails : World :=
  with_statuses world_ok 0 0 0 0 0 0 (-5) "".

(** The device returns a NaN at every index. *)
Definition world_nan : World := with_readback world_ok (fun _ => S754_nan).

(** The device returns the sums, except for an infinity at index 3. *)
Definition world_infinity : World :=
  with_readback world_ok
    (fun i => if i =? 3 then S754_infinity false else expected_value i).

(** The flags and host arrays of the buffers created in a run, in order. *)
Definition buffers_created (t : list event) : list (list cl_mem_flag * host_array) :=
  flat_map (fun e => match e with
                     | clCreateBuffer _ flags host_ptr => [(flags, host_ptr)]
                     | _ => []
                     end) t.

(** The sign bit of a float is clear and the float is a number. *)
Definition sign_clear (f : spec_float) : bool :=
  match f with
  | S754_zero s | S754_infinity s | S754_finite s _ _ => negb s
  | S754_nan => false
  end.

(** ** Running the program symbolically *)

Lemma log_nil {A} (m : M A) : log [] m = m.
Proof. destruct m; reflexivity. Qed.

Lemma log_log {A} (t1 t2 : list event) (m : M A) :
  log t1 (log t2 m) = log (t1 ++ t2)%list m.
Proof. destruct m; unfold log; now rewrite app_assoc. Qed.

Lemma log_pair {A} (t t' : list event) (r : result A) :
  log t (t', r) = ((t ++ t')%list, r).
Proof. reflexivity. Qed.

Lemma bind_ret {A B} (a : A) (f : A -> M B) : bind (ret a) f = f a.
Proof. unfold bind, ret. apply log_nil. Qed.

Lemma bind_call {A B} (e : event) (a : A) (f : A -> M B) :
  bind (call e a) f = log [e] (f a).
Proof. reflexivity. Qed.

Lemma bind_exit {A B} (code : Z) (f : A -> M B) : bind (exit code) f = exit code.
Proof. reflexivity. Qed.

Lemma bind_undefined {A B} (f : A -> M B) : bind undefined f = undefined.
Proof. reflexivity. Qed.

Lemma bind_log {A B} (t : list event) (m : M A) (f : A -> M B) :
  bind (log t m) f = log t (bind m f).
Proof.
  destruct m as [t' [a|h]]; cbn [log bind]; [|reflexivity].
  destruct (f a) as [t'' r]. cbn [log]. now rewrite app_assoc.
Qed.

Lemma bind_assoc {A B C} (m : M A) (f : A -> M B) (g : B -> M C) :
  bind (bind m f) g = bind m (fun a => bind (f a) g).
Proof.
  destruct m as [t [a|h]]; cbn [bind]; [|reflexivity].
  apply bind_log.
Qed.

Lemma check_status_pass (status : Z) (message : string) :
  (status <? 0) = false -> check_status status message = ret tt.
Proof. intros H. unfold check_status. now rewrite H. Qed.

Lemma check_status_fail (status : Z) (message : string) :
  (status <? 0) = true ->
  check_status status message = ([printf "%s" [arg_str message]], halted (exited 1)).
Proof. intros H. unfold check_status. now rewrite H. Qed.

Lemma bind_pair_done {A B} (t : list event) (a : A) (f : A -> M B) :
  bind (t, done a) f = log t (f a).
Proof. reflexivity. Qed.

Lemma bind_pair_halted {A B} (t : list event) (h : halt) (f : A -> M B) :
  bind (t, halted h) f = (t, halted h).
Proof. reflexivity. Qed.

Lemma log_halted {A} (t t' : list event) (h : halt) :
  log t (t', @halted A h) = ((t ++ t')%list, halted h).
Proof. reflexivity. Qed.

Lemma log_exit {A} (t : list event) (code : Z) :
  log t (@exit A code) = (t, halted (exited code)).
Proof. unfold log, exit. now rewrite app_nil_r. Qed.

Lemma log_ret {A} (t : list event) (a : A) : log t (ret a) = (t, done a).
Proof. unfold log, ret. now rewrite app_nil_r. Qed.

Lemma ltb_false_iff (z : Z) : (z <? 0) = false <-> 0 <= z.
Proof. rewrite Z.ltb_ge. reflexivity. Qed.

Lemma ltb_true_iff (z : Z) : (z <? 0) = true <-> z < 0.
Proof. apply Z.ltb_lt. Qed.

(** Use the facts at hand about the answers of the world. *)
Ltac use_hyp :=
  match goal with
  | H : (_ <? 0) = _ |- _ => rewrite H
  | H : (_ =? _) = _ |- _ => rewrite H
  | H : program_file _ = _ |- _ => rewrite H
  | H : init_device _ = _ |- _ => rewrite H
  | H : build_program _ _ _ _ = _ |- _ => rewrite H
  | H : mismatch _ _ = _ |- _ => rewrite H
  end.

(** One step of the program: flatten a sequence, log a call, decide a
    test from the facts at hand. *)
Ltac step :=
  first [ rewrite bind_assoc | rewrite bind_call | rewrite bind_ret
        | rewrite bind_exit | rewrite bind_undefined | rewrite bind_log
        | rewrite bind_pair_done | rewrite bind_pair_halted
        | rewrite log_log | rewrite log_halted | rewrite log_exit
        | rewrite log_ret
        | use_hyp ];
  cbv beta iota.

Ltac run := repeat step.

(** ** Device selection *)

Section DeviceSelection.

Variable w : World.
Let gpu := st_GetDeviceIDs_gpu w.
Let cpu := st_GetDeviceIDs_cpu w.

Lemma init_device_no_platform :
  st_GetPlatformIDs w < 0 ->
  init_device w =
    ([clGetPlatformIDs; printf "could not get a platform" []], halted (exited 1)).
Proof.
  intros H%ltb_true_iff. unfold init_device. run. reflexivity.
Qed.

Lemma init_device_gpu :
  0 <= st_GetPlatformIDs w -> 0 <= gpu ->
  init_device w =
    ([clGetPlatformIDs; clGetDeviceIDs CL_DEVICE_TYPE_GPU], done (live obj_device)).
Proof.
  intros H%ltb_false_iff Hg. subst gpu.
  assert (Hne : (st_GetDeviceIDs_gpu w =? CL_DEVICE_NOT_FOUND) = false)
    by (apply Z.eqb_neq; unfold CL_DEVICE_NOT_FOUND; lia).
  apply ltb_false_iff in Hg.
  unfold init_device. run. reflexivity.
Qed.

Lemma init_device_gpu_error :
  0 <= st_GetPlatformIDs w -> gpu < 0 -> gpu <> CL_DEVICE_NOT_FOUND ->
  init_device w =
    ([clGetPlatformIDs; clGetDeviceIDs CL_DEVICE_TYPE_GPU;
      printf "no devices found" []], halted (exited 1)).
Proof.
  intros H%ltb_false_iff Hg%ltb_true_iff Hne%Z.eqb_neq. subst gpu.
  unfold init_device. run. reflexivity.
Qed.

Lemma init_device_cpu :
  0 <= st_GetPlatformIDs w -> gpu = CL_DEVICE_NOT_FOUND -> 0 <= cpu ->
  init_device w =
    ([clGetPlatformIDs; clGetDeviceIDs CL_DEVICE_TYPE_GPU;
      clGetDeviceIDs CL_DEVICE_TYPE_CPU], done (live obj_device)).
Proof.
  intros H%ltb_false_iff Hg%Z.eqb_eq Hc%ltb_false_iff. subst gpu cpu.
  unfold init_device. run. reflexivity.
Qed.

Lemma init_device_cpu_error :
  0 <= st_GetPlatformIDs w -> gpu = CL_DEVICE_NOT_FOUND -> cpu < 0 ->
  init_device w =
    ([clGetPlatformIDs; clGetDeviceIDs CL_DEVICE_TYPE_GPU;
      clGetDeviceIDs CL_DEVICE_TYPE_CPU;
      printf "no devices found" []], halted (exited 1)).
Proof.
  intros H%ltb_false_iff Hg%Z.eqb_eq Hc%ltb_true_iff. subst gpu cpu.
  unfold init_device. run. reflexivity.
Qed.

End DeviceSelection.

(** [main] stops where [init_device] stops. *)
Lemma main_init_device_halted (w : World) (t : list event) (h : halt) :
  init_device w = (t, halted h) -> main w = (gettimeofday :: t, halted h).
Proof.
  intros H. unfold main. run. reflexivity.
Qed.

(** ** Building the program *)

Section BuildProgram.

Variable w : World.
Variables (ctx device_id : handle) (filename : string).

Lemma build_program_ok (text : string) :
  0 <= uninit_status w -> program_file w = Some text ->
  0 <= st_CreateProgramWithSource w -> 0 <= st_BuildProgram w ->
  build_program w ctx device_id filename =
    ([fopen filename; fseek; ftell; rewind; fread; fclose;
      clCreateProgramWithSource ctx text; clBuildProgram (live obj_program)],
     done (live obj_program)).
Proof.
  intros Hu%ltb_false_iff Hf Hc%ltb_false_iff Hb%ltb_false_iff.
  unfold build_program, check_status, created. run. reflexivity.
Qed.

(** The test after [fopen] reads the uninitialised [status]: when that
    happens to be negative the run stops, whether or not the file was
    opened. *)
Lemma build_program_status_negative :
  uninit_status w < 0 ->
  build_program w ctx device_id filename =
    ([fopen filename; printf "%s" [arg_str "find opencl kernel failed"]],
     halted (exited 1)).
Proof.
  intros Hu%ltb_true_iff. unfold build_program, check_status. run. reflexivity.
Qed.

(** When it is not negative, a file that could not be opened goes
    unnoticed and the NULL stream reaches [fseek]. *)
Lemma build_program_null_stream :
  0 <= uninit_status w -> program_file w = None ->
  build_program w ctx device_id filename =
    ([fopen filename], halted undefined_behaviour).
Proof.
  intros Hu%ltb_false_iff Hf. unfold build_program, check_status. run.
  reflexivity.
Qed.

End BuildProgram.

(** ** The stages of a run *)

Lemma nonneg_ltb (z : Z) : nonneg z = true -> (z <? 0) = false.
Proof. unfold nonneg. rewrite Z.leb_le, Z.ltb_ge. trivial. Qed.

Lemma nonneg_le (z : Z) : nonneg z = true -> 0 <= z.
Proof. unfold nonneg. now rewrite Z.leb_le. Qed.

Lemma init_device_found (w : World) :
  device_found w = true ->
  init_device w = (fst (init_device w), done (live obj_device)).
Proof.
  unfold device_found. intros [Hp Hd]%andb_prop.
  apply nonneg_le in Hp. apply nonneg_le in Hd.
  destruct (st_GetDeviceIDs_gpu w =? CL_DEVICE_NOT_FOUND) eqn:E.
  - apply Z.eqb_eq in E. now rewrite (init_device_cpu w Hp E Hd).
  - now rewrite (init_device_gpu w Hp Hd).
Qed.

Lemma build_program_built (w : World) (ctx device_id : handle) (filename : string) :
  program_built w = true ->
  build_program w ctx device_id filename =
    (fst (build_program w ctx device_id filename), done (live obj_program)).
Proof.
  unfold program_built.
  intros [[[Hu Hf]%andb_prop Hc]%andb_prop Hb]%andb_prop.
  apply nonneg_le in Hu, Hc, Hb.
  destruct (program_file w) as [text|] eqn:E; [|discriminate].
  now rewrite (build_program_ok w ctx device_id filename text Hu E Hc Hb).
Qed.

Lemma staged_facts (w : World) :
  staged w = true ->
  init_device w = (fst (init_device w), done (live obj_device)) /\
  (st_CreateContext w <? 0) = false /\
  build_program w (live obj_context) (live obj_device) PROGRAM_FILE =
    (fst (build_program w (live obj_context) (live obj_device) PROGRAM_FILE),
     done (live obj_program)) /\
  (st_CreateCommandQueue w <? 0) = false /\
  (st_CreateKernel w <? 0) = false /\
  (st_CreateBuffer w output_data <? 0) = false.
Proof.
  unfold staged.
  intros [[[[[Hd Hc]%andb_prop Hp]%andb_prop Hq]%andb_prop Hk]%andb_prop Hb]%andb_prop.
  repeat split; auto using nonneg_ltb, init_device_found, build_program_built.
Qed.

Ltac runtime_fields :=
  cbn [device context program kernel queue input_buffer bias_buffer output_buffer
       set_device set_context set_program set_kernel set_queue
       set_input_buffer set_bias_buffer set_output_buffer Runtime_init].

(** Open [main] for a world [w] that stages its buffers ([H]).  The number
    of iterations of the two loops is kept abstract while the straight-line
    part runs. *)
Ltac enter_main w H :=
  let Hdev := fresh "Hdev" in
  let Hctx := fresh "Hctx" in
  let Hprog := fresh "Hprog" in
  let Hq := fresh "Hq" in
  let Hk := fresh "Hk" in
  let Hb := fresh "Hb" in
  let Et_dev := fresh "Et_dev" in
  let Et_prog := fresh "Et_prog" in
  let En := fresh "En" in
  destruct (staged_facts w H) as (Hdev & Hctx & Hprog & Hq & Hk & Hb);
  unfold trace_before_verify, trace_staged, trace_bind, trace_dispatch,
    trace_timestamps, trace_read, trace_finish, report_timestamps,
    runtime_staged, host_input, host_bias;
  remember (fst (init_device w)) as t_dev eqn:Et_dev;
  remember (fst (build_program w (live obj_context) (live obj_device) PROGRAM_FILE))
    as t_prog eqn:Et_prog;
  unfold main, check_status;
  remember (Z.to_nat ARRAY_SIZE) as n eqn:En;
  runtime_fields; unfold created;
  clear Et_dev Et_prog En.

Ltac finish_main :=
  runtime_fields; run; rewrite <- ?app_assoc; cbn [app]; reflexivity.

(** The combined status of the binds is negative: the run stops after the
    third bind. *)
Lemma main_bind_failed (w : World) :
  staged w = true -> bind_status w < 0 ->
  main w =
    ((trace_staged w ++ trace_bind w ++
      [printf "%s" [arg_str "create kernel failed"]])%list,
     halted (exited 1)).
Proof.
  unfold bind_status. intros H Ha%ltb_true_iff.
  enter_main w H. run. finish_main.
Qed.

(** The dispatch reported a negative status: the run stops after the wait. *)
Lemma main_dispatch_failed (w : World) :
  bound w = true -> st_EnqueueNDRangeKernel w < 0 ->
  main w =
    ((trace_staged w ++ trace_bind w ++ trace_dispatch ++
      [printf "%s" [arg_str "clEnqueueNDRangeKernel failed"]])%list,
     halted (exited 1)).
Proof.
  unfold bound, bind_status.
  intros [H Ha%nonneg_ltb]%andb_prop He%ltb_true_iff.
  enter_main w H. run. finish_main.
Qed.

(** The read-back reported a negative status. *)
Lemma main_read_failed (w : World) :
  dispatched w = true -> st_EnqueueReadBuffer w < 0 ->
  main w =
    ((trace_staged w ++ trace_bind w ++ trace_dispatch ++ trace_timestamps ++
      [report_timestamps w] ++ trace_read ++
      [printf "%s" [arg_str "clEnqueueReadBuffer failed"]])%list,
     halted (exited 1)).
Proof.
  unfold dispatched, bound, bind_status.
  intros [[H Ha%nonneg_ltb]%andb_prop He%nonneg_ltb]%andb_prop Hr%ltb_true_iff.
  enter_main w H. run. finish_main.
Qed.

(** The read-back succeeded: the run reaches the comparison of the
    results, whatever [clFinish] answers. *)
Lemma main_verify (w : World) :
  read_back w = true ->
  main w =
    log (trace_before_verify w)
      (verify_loop (Z.to_nat ARRAY_SIZE) 0 (host_input w) (host_bias w) (readback w) ;;
       call (printf "ALL PASSED" []) tt ;;
       Runtime_destroy (runtime_staged w) ;;
       ret 0).
Proof.
  unfold read_back, dispatched, bound, bind_status.
  intros [[[H Ha%nonneg_ltb]%andb_prop He%nonneg_ltb]%andb_prop Hr%nonneg_ltb]%andb_prop.
  enter_main w H. run. finish_main.
Qed.

(** ** The two loops *)

Section Loops.

Variables input bias output : array.

(** No element of [i .. i+n) is out of tolerance: the loop logs nothing. *)
Lemma verify_loop_pass (n : nat) : forall i : Z,
  (forall j, i <= j < i + Z.of_nat n ->
             mismatch (F32.add (bias j) (input j)) (output j) = false) ->
  verify_loop n i input bias output = ret tt.
Proof.
  induction n as [|n IH]; intros i Hall; [reflexivity|].
  cbn [verify_loop]. rewrite (Hall i) by lia.
  rewrite bind_ret. apply IH. intros j Hj. apply Hall. lia.
Qed.

(** [i0] is the first element of [i .. i+n) out of tolerance: the loop
    reports it and the process exits; the elements after [i0] play no
    part. *)
Lemma verify_loop_fail (n : nat) (i0 : Z) : forall i : Z,
  i <= i0 < i + Z.of_nat n ->
  mismatch (F32.add (bias i0) (input i0)) (output i0) = true ->
  (forall j, i <= j < i0 ->
             mismatch (F32.add (bias j) (input j)) (output j) = false) ->
  verify_loop n i input bias output =
    ([diagnostic i0 (F32.add (bias i0) (input i0)) (output i0);
      printf "%s" [arg_str "CHECK RESULT FAILED"]],
     halted (exited 1)).
Proof.
  induction n as [|n IH]; intros i Hi Hbad Hgood; [lia|].
  cbn [verify_loop].
  destruct (Z.eq_dec i i0) as [->|Hne].
  - rewrite Hbad. unfold check_status. cbn [Z.ltb Z.compare].
    run. reflexivity.
  - rewrite (Hgood i) by lia. rewrite bind_ret.
    apply IH; [lia|assumption|]. intros j Hj. apply Hgood. lia.
Qed.

(** The loop only ever prints. *)
Lemma verify_loop_prints (n : nat) : forall i : Z,
  Forall (fun e => exists f a, e = printf f a)
         (fst (verify_loop n i input bias output)).
Proof.
  induction n as [|n IH]; intros i; [constructor|].
  cbn [verify_loop].
  destruct (mismatch _ _).
  - unfold check_status. cbn [Z.ltb Z.compare]. run. cbn [fst].
    repeat constructor; eauto.
  - rewrite bind_ret. apply IH.
Qed.

End Loops.

Section InitLoop.

(** After [n] iterations from index [i], the elements of [i .. i+n) hold
    the initial data and the others are untouched. *)
Lemma init_loop_spec (n : nat) : forall (i : Z) (input bias : array) (j : Z),
  fst (init_loop n i input bias) j =
    (if (i <=? j) && (j <? i + Z.of_nat n)
     then F32.mul (F32.of_int 1) (F32.of_int j) else input j) /\
  snd (init_loop n i input bias) j =
    (if (i <=? j) && (j <? i + Z.of_nat n)
     then F32.of_int 10000 else bias j).
Proof.
  induction n as [|n IH]; intros i input bias j.
  - cbn [init_loop fst snd].
    replace ((i <=? j) && (j <? i + Z.of_nat 0)) with false; [auto|].
    symmetry. apply andb_false_iff. rewrite Z.leb_gt, Z.ltb_ge. lia.
  - cbn [init_loop]. destruct (IH (i + 1) (store input i (F32.mul (F32.of_int 1) (F32.of_int i)))
                                 (store bias i (F32.of_int 10000)) j) as [-> ->].
    unfold store.
    destruct (Z.eqb_spec j i) as [->|Hne].
    + replace ((i + 1 <=? i) && (i <? i + 1 + Z.of_nat n)) with false
        by (symmetry; apply andb_false_iff; rewrite Z.leb_gt; lia).
      replace ((i <=? i) && (i <? i + Z.of_nat (S n))) with true
        by (symmetry; apply andb_true_iff; rewrite Z.leb_le, Z.ltb_lt; lia).
      auto.
    + replace ((i <=? j) && (j <? i + Z.of_nat (S n)))
        with ((i + 1 <=? j) && (j <? i + 1 + Z.of_nat n)); [auto|].
      destruct (i + 1 <=? j) eqn:E1, (i <=? j) eqn:E2;
        rewrite ?Z.leb_le, ?Z.leb_gt in *; try lia; cbn [andb]; trivial.
      destruct (j <? i + 1 + Z.of_nat n) eqn:E3, (j <? i + Z.of_nat (S n)) eqn:E4;
        rewrite ?Z.ltb_lt, ?Z.ltb_ge in *; try lia; trivial.
Qed.

End InitLoop.

Lemma expected_def (w : World) (i : Z) :
  expected w i = F32.add (host_bias w i) (host_input w i).
Proof. unfold expected. reflexivity. Qed.

Lemma host_input_at (w : World) (i : Z) :
  0 <= i < ARRAY_SIZE -> host_input w i = F32.mul (F32.of_int 1) (F32.of_int i).
Proof.
  intros Hi. unfold host_input.
  rewrite (proj1 (init_loop_spec _ _ _ _ _)).
  rewrite Z2Nat.id by (unfold ARRAY_SIZE; lia).
  replace ((0 <=? i) && (i <? 0 + ARRAY_SIZE)) with true; [reflexivity|].
  symmetry. apply andb_true_iff. rewrite Z.leb_le, Z.ltb_lt. lia.
Qed.

Lemma host_bias_at (w : World) (i : Z) :
  0 <= i < ARRAY_SIZE -> host_bias w i = F32.of_int 10000.
Proof.
  intros Hi. unfold host_bias.
  rewrite (proj2 (init_loop_spec _ _ _ _ _)).
  rewrite Z2Nat.id by (unfold ARRAY_SIZE; lia).
  replace ((0 <=? i) && (i <? 0 + ARRAY_SIZE)) with true; [reflexivity|].
  symmetry. apply andb_true_iff. rewrite Z.leb_le, Z.ltb_lt. lia.
Qed.

(** From here on the loops are used through their lemmas only. *)
Opaque init_loop verify_loop.

(** ** Checking a property of every index by computation *)

Lemma all_from_spec (p : Z -> bool) (n : nat) : forall i : Z,
  all_from n i p = true -> forall j, i <= j < i + Z.of_nat n -> p j = true.
Proof.
  induction n as [|n IH]; intros i H j Hj; [lia|].
  cbn [all_from] in H. apply andb_prop in H as [Hi Hrest].
  destruct (Z.eq_dec j i) as [->|Hne]; [assumption|].
  apply (IH (i + 1)); [assumption|lia].
Qed.

Lemma all_indices (p : Z -> bool) :
  all_from (Z.to_nat ARRAY_SIZE) 0 p = true ->
  forall i, 0 <= i < ARRAY_SIZE -> p i = true.
Proof.
  intros H i Hi. apply (all_from_spec p _ 0 H).
  rewrite Z2Nat.id by (unfold ARRAY_SIZE; lia). lia.
Qed.

Lemma sf_same_eq (a b : spec_float) : sf_same a b = true -> a = b.
Proof.
  destruct a, b; cbn [sf_same]; try discriminate; trivial.
  - intros ->%Bool.eqb_prop. reflexivity.
  - intros ->%Bool.eqb_prop. reflexivity.
  - intros [[->%Bool.eqb_prop ->%Pos.eqb_eq]%andb_prop ->%Z.eqb_eq]%andb_prop.
    reflexivity.
Qed.

(** ** The initial data and the expected values *)

Lemma expected_at (w : World) (i : Z) :
  0 <= i < ARRAY_SIZE -> expected w i = expected_value i.
Proof.
  intros Hi. rewrite expected_def.
  rewrite (host_input_at w i Hi), (host_bias_at w i Hi). reflexivity.
Qed.

Lemma data_check_everywhere :
  all_from (Z.to_nat ARRAY_SIZE) 0 data_check = true.
Proof. vm_cast_no_check (eq_refl true). Qed.

Lemma data_exact (i : Z) :
  0 <= i < ARRAY_SIZE ->
  input_value i = F32.of_int i /\
  represents (input_value i) i = true /\
  represents (expected_value i) (i + 10000) = true /\
  is_finite (expected_value i) = true /\
  (i <= 90000 -> mismatch (expected_value i) (S754_zero false) = false).
Proof.
  intros Hi.
  pose proof (all_indices _ data_check_everywhere i Hi) as H.
  unfold data_check in H.
  apply andb_prop in H as [[[[H1 H2]%andb_prop H3]%andb_prop H4]%andb_prop H5].
  repeat split; auto using sf_same_eq.
  intros Hle. apply orb_prop in H5 as [H5|H5].
  - apply Z.ltb_lt in H5. lia.
  - now apply negb_true_iff in H5.
Qed.


(** ** The outcome of the verification *)

Lemma range_of_size (j : Z) :
  0 <= j < 0 + Z.of_nat (Z.to_nat ARRAY_SIZE) <-> 0 <= j < ARRAY_SIZE.
Proof. rewrite Z2Nat.id by (unfold ARRAY_SIZE; lia). lia. Qed.

(** The host data and the expected values do not depend on what the device
    answers. *)
Lemma host_input_with_readback (w : World) (r : Z -> spec_float) :
  host_input (with_readback w r) = host_input w.
Proof. reflexivity. Qed.

Lemma host_bias_with_readback (w : World) (r : Z -> spec_float) :
  host_bias (with_readback w r) = host_bias w.
Proof. reflexivity. Qed.

Lemma expected_with_readback (w : World) (r : Z -> spec_float) (j : Z) :
  expected (with_readback w r) j = expected w j.
Proof. reflexivity. Qed.

(** No element is out of tolerance: the run prints ["ALL PASSED"], destroys
    [runtime] and returns 0. *)
Lemma main_all_pass (w : World) :
  read_back w = true ->
  (forall i, 0 <= i < ARRAY_SIZE ->
             mismatch (expected w i) (readback w i) = false) ->
  main w =
    ((trace_before_verify w ++ [printf "ALL PASSED" []] ++ trace_release w)%list,
     done 0).
Proof.
  intros H Hall. rewrite (main_verify w H).
  rewrite (verify_loop_pass (host_input w) (host_bias w) (readback w)
             (Z.to_nat ARRAY_SIZE) 0)
    by (intros j Hj; apply range_of_size in Hj;
        rewrite <- expected_def; exact (Hall j Hj)).
  unfold Runtime_destroy, trace_release. run.
  rewrite <- ?app_assoc. reflexivity.
Qed.

(** [i0] is the first element out of tolerance: the run reports it and
    exits with status 1. *)
Lemma main_first_mismatch (w : World) (i0 : Z) :
  read_back w = true ->
  0 <= i0 < ARRAY_SIZE ->
  mismatch (expected w i0) (readback w i0) = true ->
  (forall j, 0 <= j < i0 -> mismatch (expected w j) (readback w j) = false) ->
  main w =
    ((trace_before_verify w ++
      [diagnostic i0 (expected w i0) (readback w i0);
       printf "%s" [arg_str "CHECK RESULT FAILED"]])%list,
     halted (exited 1)).
Proof.
  intros H Hi Hbad Hgood. rewrite (main_verify w H).
  rewrite (verify_loop_fail (host_input w) (host_bias w) (readback w)
             (Z.to_nat ARRAY_SIZE) i0 0);
    [ | apply range_of_size; exact Hi
      | rewrite <- expected_def; exact Hbad
      | intros j Hj; rewrite <- expected_def; exact (Hgood j Hj) ].
  rewrite <- expected_def. rewrite bind_pair_halted. apply log_halted.
Qed.

(** Either some element is the first out of tolerance, or none is. *)
Lemma first_mismatch_or_none (p : Z -> bool) (n : nat) : forall i : Z,
  (exists i0, i <= i0 < i + Z.of_nat n /\ p i0 = true /\
              forall j, i <= j < i0 -> p j = false) \/
  (forall j, i <= j < i + Z.of_nat n -> p j = false).
Proof.
  induction n as [|n IH]; intros i; [right; intros; lia|].
  destruct (p i) eqn:Ei.
  - left. exists i. repeat split; [lia|lia|assumption|intros; lia].
  - destruct (IH (i + 1)) as [(i0 & Hi0 & Hp & Hbefore)|Hnone].
    + left. exists i0. repeat split; [lia|lia|assumption|].
      intros j Hj. destruct (Z.eq_dec j i) as [->|]; [assumption|].
      apply Hbefore. lia.
    + right. intros j Hj. destruct (Z.eq_dec j i) as [->|]; [assumption|].
      apply Hnone. lia.
Qed.

(** The test of the verifier, written with the operations of the source. *)
Lemma tolerance_test_def (w : World) (i : Z) :
  F64.gtb (F64.of_float
             (SFabs (F32.sub (F32.add (host_bias w i) (host_input w i))
                             (readback w i))))
          (F64.of_int 100000) =
  mismatch (expected w i) (readback w i).
Proof. rewrite (expected_def w i). unfold mismatch. reflexivity. Qed.

(** C1.  In a run that read the output back, the verifier computes at each
    index [i] of [0 .. 100000) the value [output i], which is
    [bias_data[i] + input_data[i]] in single precision, and compares it to
    [output_data[i]] with a tolerance on the absolute difference: the test
    [exceeds i] is [abs(output - output_data[i]) > 1e5], the difference and
    its absolute value taken in single precision and the comparison in
    double precision.  If [i0] is the first index where the test holds, the
    run ends with the line that reports [i0], the expected and the actual
    value, followed by the fatal message, and the process exits with
    status 1; the elements after [i0] have no influence on the run.  If the
    test holds nowhere, the run prints ["ALL PASSED"], releases its
    resources and returns 0.  One of the two always happens: the process
    exits with status 1 exactly when the test holds at some index, and
    returns 0 exactly when it holds at none. *)
Theorem verification_outcome (w : World) :
  read_back w = true ->
  let output i := F32.add (host_bias w i) (host_input w i) in
  let exceeds i :=
    F64.gtb (F64.of_float (SFabs (F32.sub (output i) (readback w i))))
            (F64.of_int 100000) in
  (forall i, expected w i = output i) /\
  (forall i0, 0 <= i0 < ARRAY_SIZE ->
     exceeds i0 = true ->
     (forall j, 0 <= j < i0 -> exceeds j = false) ->
     main w =
       ((trace_before_verify w ++
         [printf ("%d %f vs %f " ++ newline)
            [arg_int i0; arg_double (F64.of_float (output i0));
             arg_double (F64.of_float (readback w i0))];
          printf "%s" [arg_str "CHECK RESULT FAILED"]])%list,
        halted (exited 1)) /\
     forall r, (forall j, 0 <= j <= i0 -> r j = readback w j) ->
               main (with_readback w r) = main w) /\
  ((forall i, 0 <= i < ARRAY_SIZE -> exceeds i = false) ->
   main w =
     ((trace_before_verify w ++ [printf "ALL PASSED" []] ++ trace_release w)%list,
      done 0)) /\
  (snd (main w) = halted (exited 1) \/ snd (main w) = done 0) /\
  (snd (main w) = halted (exited 1) <->
   exists i, 0 <= i < ARRAY_SIZE /\ exceeds i = true) /\
  (snd (main w) = done 0 <->
   forall i, 0 <= i < ARRAY_SIZE -> exceeds i = false).
Proof.
  intros H output exceeds.
  assert (Hex : forall i, exceeds i = mismatch (expected w i) (readback w i))
    by (intros i; unfold exceeds, output; exact (tolerance_test_def w i)).
  assert (Hout : forall i, expected w i = output i)
    by (intros i; unfold output; exact (expected_def w i)).
  assert (Hfirst : forall i0, 0 <= i0 < ARRAY_SIZE -> exceeds i0 = true ->
            (forall j, 0 <= j < i0 -> exceeds j = false) ->
            main w =
              ((trace_before_verify w ++
                [diagnostic i0 (expected w i0) (readback w i0);
                 printf "%s" [arg_str "CHECK RESULT FAILED"]])%list,
               halted (exited 1))).
  { intros i0 Hi Hbad Hgood. rewrite Hex in Hbad.
    apply (main_first_mismatch w i0 H Hi Hbad).
    intros j Hj. rewrite <- Hex. apply Hgood. exact Hj. }
  assert (Hpass : (forall i, 0 <= i < ARRAY_SIZE -> exceeds i = false) ->
            main w =
              ((trace_before_verify w ++ [printf "ALL PASSED" []] ++
                trace_release w)%list, done 0)).
  { intros Hall. apply (main_all_pass w H).
    intros i Hi. rewrite <- Hex. apply Hall. exact Hi. }
  assert (Hcases :
            (exists i0, 0 <= i0 < ARRAY_SIZE /\ exceeds i0 = true /\
                        forall j, 0 <= j < i0 -> exceeds j = false) \/
            (forall i, 0 <= i < ARRAY_SIZE -> exceeds i = false)).
  { destruct (first_mismatch_or_none exceeds (Z.to_nat ARRAY_SIZE) 0)
      as [(i0 & Hi & Hbad & Hgood)|Hnone].
    - left. exists i0. apply range_of_size in Hi. auto.
    - right. intros i Hi. apply Hnone. apply range_of_size. exact Hi. }
  split; [exact Hout|]. split; [|split; [exact Hpass|split; [|split]]].
  - intros i0 Hi Hbad Hgood. split.
    + rewrite (Hfirst i0 Hi Hbad Hgood). unfold diagnostic.
      rewrite (Hout i0). reflexivity.
    + intros r Hr.
      rewrite (Hfirst i0 Hi Hbad Hgood).
      pose proof (expected_with_readback w r) as Hexp.
      rewrite Hex in Hbad.
      rewrite (main_first_mismatch (with_readback w r) i0 H Hi).
      * cbn [readback with_readback]. rewrite Hr, Hexp by lia. reflexivity.
      * cbn [readback with_readback]. rewrite Hr, Hexp by lia. assumption.
      * intros j Hj. cbn [readback with_readback]. rewrite Hr, Hexp by lia.
        rewrite <- Hex. apply Hgood. assumption.
  - destruct Hcases as [(i0 & Hi & Hbad & Hgood)|Hnone].
    + left. now rewrite (Hfirst i0 Hi Hbad Hgood).
    + right. now rewrite (Hpass Hnone).
  - split.
    + intros Hexit. destruct Hcases as [(i0 & Hi & Hbad & _)|Hnone].
      * exists i0. auto.
      * rewrite (Hpass Hnone) in Hexit. discriminate Hexit.
    + intros (i & Hi & Hbad). destruct Hcases as [(i0 & Hi0 & Hbad0 & Hgood)|Hnone].
      * now rewrite (Hfirst i0 Hi0 Hbad0 Hgood).
      * rewrite (Hnone i Hi) in Hbad. discriminate Hbad.
  - split.
    + intros Hdone. destruct Hcases as [(i0 & Hi & Hbad & Hgood)|Hnone].
      * rewrite (Hfirst i0 Hi Hbad Hgood) in Hdone. discriminate Hdone.
      * exact Hnone.
    + intros Hnone. now rewrite (Hpass Hnone).
Qed.

(** ** Facts about the tolerance test *)

Lemma mismatch_same (x : spec_float) :
  is_finite x = true -> mismatch x x = false.
Proof.
  destruct x as [| | |s m e]; try discriminate. intros _.
  unfold mismatch, F32.sub, SFsub.
  rewrite Z.sub_diag. reflexivity.
Qed.

Lemma mismatch_expected_value (i : Z) :
  0 <= i < ARRAY_SIZE -> mismatch (expected_value i) (expected_value i) = false.
Proof.
  intros Hi. apply mismatch_same. apply (data_exact i Hi).
Qed.

Lemma zeros_pass (w : World) (last_zero : Z) :
  last_zero <= 90000 ->
  (forall i, 0 <= i < ARRAY_SIZE -> readback w i = zeros_up_to last_zero i) ->
  forall i, 0 <= i < ARRAY_SIZE -> mismatch (expected w i) (readback w i) = false.
Proof.
  intros Hlast Hr i Hi. rewrite (Hr i Hi), (expected_at w i Hi).
  unfold zeros_up_to. destruct (Z.leb_spec i last_zero).
  - apply (data_exact i Hi). lia.
  - apply (mismatch_expected_value i Hi).
Qed.

Lemma world_ok_passes (w : World) :
  (forall i, 0 <= i < ARRAY_SIZE -> readback w i = expected_value i) ->
  forall i, 0 <= i < ARRAY_SIZE -> mismatch (expected w i) (readback w i) = false.
Proof.
  intros Hr i Hi. rewrite (Hr i Hi), (expected_at w i Hi).
  apply (mismatch_expected_value i Hi).
Qed.

Lemma world_one_wrong_readback (i : Z) :
  readback world_one_wrong i = one_wrong i.
Proof. reflexivity. Qed.

(** [verification_outcome] in a world where the device returns the sums,
    and in a world where the element at index 7 is 1000000 instead of
    10007: the run reports index 7 and exits, and what the device returns
    after index 7 makes no difference. *)
Lemma verification_outcome_witness :
  (read_back world_ok = true /\
   main world_ok =
     ((trace_before_verify world_ok ++ [printf "ALL PASSED" []] ++
       trace_release world_ok)%list, done 0)) /\
  (read_back world_one_wrong = true /\
   main world_one_wrong =
     ((trace_before_verify world_one_wrong ++
       [printf ("%d %f vs %f " ++ newline)
          [arg_int 7; arg_double (F64.of_int 10007);
           arg_double (F64.of_int 1000000)];
        printf "%s" [arg_str "CHECK RESULT FAILED"]])%list,
      halted (exited 1)) /\
   main (with_readback world_one_wrong
           (fun i => if i <=? 7 then one_wrong i else S754_nan)) =
     main world_one_wrong).
Proof.
  assert (Hi7 : 0 <= 7 < ARRAY_SIZE) by (unfold ARRAY_SIZE; lia).
  split; (split; [reflexivity|]).
  - destruct (verification_outcome world_ok eq_refl) as (_ & _ & Hpass & _).
    apply Hpass. intros i Hi.
    rewrite (tolerance_test_def world_ok i).
    apply world_ok_passes; [reflexivity|exact Hi].
  - destruct (verification_outcome world_one_wrong eq_refl) as (_ & Hfail & _).
    destruct (Hfail 7 Hi7) as [Hmain Hlater].
    + rewrite (tolerance_test_def world_one_wrong 7).
      rewrite (expected_at world_one_wrong 7 Hi7). reflexivity.
    + intros j Hj.
      assert (Hjr : 0 <= j < ARRAY_SIZE) by (unfold ARRAY_SIZE; lia).
      rewrite (tolerance_test_def world_one_wrong j).
      rewrite (expected_at world_one_wrong j Hjr), world_one_wrong_readback.
      unfold one_wrong. destruct (Z.eqb_spec j 7) as [|_]; [lia|].
      exact (mismatch_expected_value j Hjr).
    + split.
      * rewrite Hmain.
        rewrite (host_bias_at world_one_wrong 7 Hi7),
                (host_input_at world_one_wrong 7 Hi7).
        reflexivity.
      * apply Hlater. intros j Hj. cbv beta.
        destruct (Z.leb_spec j 7); [reflexivity|lia].
Defined.


(** ** Device selection (C6) *)

(** C6.  Once a platform is found, [init_device] queries the GPU class
    first.  It queries the CPU class if and only if the GPU query answers
    [CL_DEVICE_NOT_FOUND].  Any other negative answer of the GPU query ends
    the process at once with ["no devices found"] and exit status 1, without
    a CPU query, and so does a negative answer of the CPU query after a
    fallback.  Otherwise a device is selected. *)
Theorem device_selection_policy (w : World) :
  0 <= st_GetPlatformIDs w ->
  let gpu := st_GetDeviceIDs_gpu w in
  let cpu := st_GetDeviceIDs_cpu w in
  (exists rest,
     fst (init_device w) =
       clGetPlatformIDs :: clGetDeviceIDs CL_DEVICE_TYPE_GPU :: rest /\
     (In (clGetDeviceIDs CL_DEVICE_TYPE_CPU) rest <-> gpu = CL_DEVICE_NOT_FOUND)) /\
  (gpu < 0 -> gpu <> CL_DEVICE_NOT_FOUND ->
   init_device w =
     ([clGetPlatformIDs; clGetDeviceIDs CL_DEVICE_TYPE_GPU;
       printf "no devices found" []], halted (exited 1)) /\
   main w =
     ([gettimeofday; clGetPlatformIDs; clGetDeviceIDs CL_DEVICE_TYPE_GPU;
       printf "no devices found" []], halted (exited 1))) /\
  (gpu = CL_DEVICE_NOT_FOUND -> cpu < 0 ->
   init_device w =
     ([clGetPlatformIDs; clGetDeviceIDs CL_DEVICE_TYPE_GPU;
       clGetDeviceIDs CL_DEVICE_TYPE_CPU;
       printf "no devices found" []], halted (exited 1)) /\
   main w =
     ([gettimeofday; clGetPlatformIDs; clGetDeviceIDs CL_DEVICE_TYPE_GPU;
       clGetDeviceIDs CL_DEVICE_TYPE_CPU;
       printf "no devices found" []], halted (exited 1))) /\
  (gpu = CL_DEVICE_NOT_FOUND -> 0 <= cpu ->
   init_device w =
     ([clGetPlatformIDs; clGetDeviceIDs CL_DEVICE_TYPE_GPU;
       clGetDeviceIDs CL_DEVICE_TYPE_CPU], done (live obj_device))) /\
  (0 <= gpu ->
   init_device w =
     ([clGetPlatformIDs; clGetDeviceIDs CL_DEVICE_TYPE_GPU],
      done (live obj_device))).
Proof.
  intros Hp gpu cpu.
  assert (Hcases : (0 <= gpu) \/ (gpu < 0 /\ gpu <> CL_DEVICE_NOT_FOUND) \/
                   (gpu = CL_DEVICE_NOT_FOUND /\ 0 <= cpu) \/
                   (gpu = CL_DEVICE_NOT_FOUND /\ cpu < 0))
    by (unfold CL_DEVICE_NOT_FOUND; lia).
  split; [|repeat split].
  - destruct Hcases as [Hg|[[Hg Hne]|[[Hg Hc]|[Hg Hc]]]].
    + rewrite (init_device_gpu w Hp Hg). eexists. split; [reflexivity|].
      cbn [In]. unfold CL_DEVICE_NOT_FOUND. split; [tauto|lia].
    + rewrite (init_device_gpu_error w Hp Hg Hne). eexists.
      split; [reflexivity|]. cbn [In]. split; [|tauto].
      intros [H|[]]. discriminate H.
    + rewrite (init_device_cpu w Hp Hg Hc). eexists. split; [reflexivity|].
      cbn [In]. tauto.
    + rewrite (init_device_cpu_error w Hp Hg Hc). eexists.
      split; [reflexivity|]. cbn [In]. tauto.
  - apply (init_device_gpu_error w Hp); assumption.
  - apply main_init_device_halted, (init_device_gpu_error w Hp); assumption.
  - apply (init_device_cpu_error w Hp); assumption.
  - apply main_init_device_halted, (init_device_cpu_error w Hp); assumption.
  - apply (init_device_cpu w Hp); assumption.
  - apply (init_device_gpu w Hp); assumption.
Qed.

(** [device_selection_policy] in a world without GPU and without CPU. *)
Lemma device_selection_policy_witness :
  0 <= st_GetPlatformIDs world_no_device /\
  main world_no_device =
    ([gettimeofday; clGetPlatformIDs; clGetDeviceIDs CL_DEVICE_TYPE_GPU;
      clGetDeviceIDs CL_DEVICE_TYPE_CPU;
      printf "no devices found" []], halted (exited 1)).
Proof.
  assert (Hp : 0 <= st_GetPlatformIDs world_no_device) by (cbn; lia).
  split; [exact Hp|].
  apply (device_selection_policy world_no_device Hp); reflexivity.
Defined.

(** ** Binding the kernel arguments (C7) and the dispatch (C8) *)

Lemma fst_log {A} (t : list event) (m : M A) : fst (log t m) = (t ++ fst m)%list.
Proof. destruct m. reflexivity. Qed.

Lemma bind_status_negative (w : World) :
  bind_status w < 0 <->
  st_SetKernelArg w 0 < 0 \/ st_SetKernelArg w 1 < 0 \/ st_SetKernelArg w 2 < 0.
Proof. unfold bind_status. rewrite !Z.lor_neg. tauto. Qed.

Lemma bind_status_nonneg (w : World) :
  0 <= bind_status w <->
  0 <= st_SetKernelArg w 0 /\ 0 <= st_SetKernelArg w 1 /\ 0 <= st_SetKernelArg w 2.
Proof. unfold bind_status. rewrite !Z.lor_nonneg. tauto. Qed.

Lemma nonneg_of_le (z : Z) : 0 <= z -> nonneg z = true.
Proof. unfold nonneg. now rewrite Z.leb_le. Qed.

(** A run that dispatched goes on to read the four timestamps. *)
Lemma main_reads_timestamps (w : World) :
  dispatched w = true ->
  exists rest,
    fst (main w) =
      (trace_staged w ++ trace_bind w ++ trace_dispatch ++ trace_timestamps ++
       rest)%list.
Proof.
  intros H.
  destruct (Z.lt_ge_cases (st_EnqueueReadBuffer w) 0) as [Hr|Hr].
  - rewrite (main_read_failed w H Hr). cbn [fst]. eexists. reflexivity.
  - assert (Hrb : read_back w = true)
      by (unfold read_back; rewrite H; apply nonneg_of_le; exact Hr).
    rewrite (main_verify w Hrb), fst_log. unfold trace_before_verify.
    rewrite <- !app_assoc. eexists. reflexivity.
Qed.

(** A run that bound its arguments goes on to the dispatch. *)
Lemma main_reaches_dispatch (w : World) :
  bound w = true ->
  exists rest,
    fst (main w) = (trace_staged w ++ trace_bind w ++ trace_dispatch ++ rest)%list.
Proof.
  intros H.
  destruct (Z.lt_ge_cases (st_EnqueueNDRangeKernel w) 0) as [He|He].
  - rewrite (main_dispatch_failed w H He). cbn [fst]. eexists. reflexivity.
  - assert (Hd : dispatched w = true)
      by (unfold dispatched; rewrite H; apply nonneg_of_le; exact He).
    destruct (main_reads_timestamps w Hd) as [rest ->]. eexists. reflexivity.
Qed.

(** C7.  In a run that staged its buffers, the three [clSetKernelArg] calls
    follow, for slots 0, 1, 2 with the input, bias and output buffer in this
    order, whatever the three statuses are: a negative status of slot 0
    does not stop the binds of slots 1 and 2.  The statuses are combined
    with [|] and tested once, after the third call: if any of the three is
    negative the process prints the failure and exits with status 1;
    otherwise the run goes on to the dispatch. *)
Theorem kernel_args_bound_then_checked (w : World) :
  staged w = true ->
  let s0 := st_SetKernelArg w 0 in
  let s1 := st_SetKernelArg w 1 in
  let s2 := st_SetKernelArg w 2 in
  let binds :=
    [clSetKernelArg (live obj_kernel) 0 (input_buffer (runtime_staged w));
     clSetKernelArg (live obj_kernel) 1 (bias_buffer (runtime_staged w));
     clSetKernelArg (live obj_kernel) 2 (output_buffer (runtime_staged w))] in
  (exists rest, fst (main w) = (trace_staged w ++ binds ++ rest)%list) /\
  (s0 < 0 \/ s1 < 0 \/ s2 < 0 ->
   main w =
     ((trace_staged w ++ binds ++
       [printf "%s" [arg_str "create kernel failed"]])%list,
      halted (exited 1))) /\
  (0 <= s0 /\ 0 <= s1 /\ 0 <= s2 ->
   exists rest,
     fst (main w) =
       (trace_staged w ++ binds ++
        clEnqueueNDRangeKernel (live obj_queue) (live obj_kernel) ARRAY_SIZE
        :: rest)%list).
Proof.
  intros H s0 s1 s2 binds.
  assert (Hok : 0 <= bind_status w -> exists rest,
            fst (main w) = (trace_staged w ++ binds ++ trace_dispatch ++ rest)%list).
  { intros Hb. apply main_reaches_dispatch.
    unfold bound. rewrite H. apply nonneg_of_le. exact Hb. }
  split; [|split].
  - destruct (Z.lt_ge_cases (bind_status w) 0) as [Hb|Hb].
    + rewrite (main_bind_failed w H Hb). cbn [fst]. eexists. reflexivity.
    + destruct (Hok Hb) as [rest ->]. eexists. reflexivity.
  - intros Hneg%bind_status_negative. apply (main_bind_failed w H Hneg).
  - intros Hpos%bind_status_nonneg. destruct (Hok Hpos) as [rest ->].
    eexists. reflexivity.
Qed.

(** [kernel_args_bound_then_checked] in a world where the bind of slot 0
    fails and the other two succeed. *)
Lemma kernel_args_bound_then_checked_witness :
  staged world_arg0_fails = true /\
  main world_arg0_fails =
    ((trace_staged world_arg0_fails ++
      [clSetKernelArg (live obj_kernel) 0 (live (obj_mem input_data));
       clSetKernelArg (live obj_kernel) 1 (live (obj_mem bias_data));
       clSetKernelArg (live obj_kernel) 2 (live (obj_mem output_data))] ++
      [printf "%s" [arg_str "create kernel failed"]])%list,
     halted (exited 1)).
Proof.
  split; [reflexivity|].
  apply (kernel_args_bound_then_checked world_arg0_fails); [reflexivity|].
  left. reflexivity.
Defined.

Lemma dispatches_app (t1 t2 : list event) :
  dispatches (t1 ++ t2) = (dispatches t1 + dispatches t2)%nat.
Proof. unfold dispatches. now rewrite filter_app, length_app. Qed.

Lemma init_device_no_dispatch (w : World) : dispatches (fst (init_device w)) = 0%nat.
Proof.
  unfold init_device.
  destruct (st_GetPlatformIDs w <? 0) eqn:Hp; run; [reflexivity|].
  destruct (st_GetDeviceIDs_gpu w =? CL_DEVICE_NOT_FOUND) eqn:Hg; run.
  - destruct (st_GetDeviceIDs_cpu w <? 0) eqn:Hc; run; reflexivity.
  - destruct (st_GetDeviceIDs_gpu w <? 0) eqn:Hc; run; reflexivity.
Qed.

Lemma build_program_no_dispatch (w : World) (ctx dev : handle) (f : string) :
  dispatches (fst (build_program w ctx dev f)) = 0%nat.
Proof.
  unfold build_program, check_status.
  destruct (uninit_status w <? 0) eqn:Hu; run; [reflexivity|].
  destruct (program_file w) as [text|] eqn:Hf; run; [|reflexivity].
  destruct (st_CreateProgramWithSource w <? 0) eqn:Hc; run; [reflexivity|].
  destruct (st_BuildProgram w <? 0) eqn:Hb; run; reflexivity.
Qed.

Lemma trace_staged_no_dispatch (w : World) : dispatches (trace_staged w) = 0%nat.
Proof.
  unfold trace_staged.
  rewrite !dispatches_app, init_device_no_dispatch, build_program_no_dispatch.
  reflexivity.
Qed.

Lemma dispatch_single (w : World) :
  bound w = true -> dispatches (fst (main w)) = 1%nat.
Proof.
  intros H.
  destruct (Z.lt_ge_cases (st_EnqueueNDRangeKernel w) 0) as [He|He].
  { rewrite (main_dispatch_failed w H He). cbn [fst].
    rewrite !dispatches_app, trace_staged_no_dispatch. reflexivity. }
  assert (Hd : dispatched w = true)
    by (unfold dispatched; rewrite H; apply nonneg_of_le; exact He).
  destruct (Z.lt_ge_cases (st_EnqueueReadBuffer w) 0) as [Hr|Hr].
  { rewrite (main_read_failed w Hd Hr). cbn [fst].
    rewrite !dispatches_app, trace_staged_no_dispatch. reflexivity. }
  assert (Hrb : read_back w = true)
    by (unfold read_back; rewrite Hd; apply nonneg_of_le; exact Hr).
  destruct (first_mismatch_or_none
              (fun i => mismatch (expected w i) (readback w i))
              (Z.to_nat ARRAY_SIZE) 0) as [(i0 & Hi & Hbad & Hgood)|Hnone].
  - apply range_of_size in Hi.
    rewrite (main_first_mismatch w i0 Hrb Hi Hbad Hgood). cbn [fst].
    unfold trace_before_verify.
    rewrite !dispatches_app, trace_staged_no_dispatch. reflexivity.
  - rewrite (main_all_pass w Hrb)
      by (intros j Hj; apply Hnone, range_of_size, Hj).
    cbn [fst]. unfold trace_before_verify.
    rewrite !dispatches_app, trace_staged_no_dispatch. reflexivity.
Qed.

(** C8.  A run that bound its arguments dispatches the kernel exactly
    once, and the dispatch is followed by the wait on its event.  Only then
    is the status of the dispatch tested: if it is negative, the failure is
    printed after the wait and the process exits with status 1, without
    reading a timestamp; if not, the four timestamps are read after the
    wait, in the order queued, submit, start, end. *)
Theorem dispatch_checked_after_wait (w : World) :
  bound w = true ->
  let dispatch :=
    clEnqueueNDRangeKernel (live obj_queue) (live obj_kernel) ARRAY_SIZE in
  dispatches (fst (main w)) = 1%nat /\
  (st_EnqueueNDRangeKernel w < 0 ->
   main w =
     ((trace_staged w ++ trace_bind w ++
       [dispatch; clWaitForEvents;
        printf "%s" [arg_str "clEnqueueNDRangeKernel failed"]])%list,
      halted (exited 1))) /\
  (0 <= st_EnqueueNDRangeKernel w ->
   exists rest,
     fst (main w) =
       (trace_staged w ++ trace_bind w ++
        [dispatch; clWaitForEvents;
         clGetEventProfilingInfo CL_PROFILING_COMMAND_QUEUED;
         clGetEventProfilingInfo CL_PROFILING_COMMAND_SUBMIT;
         clGetEventProfilingInfo CL_PROFILING_COMMAND_START;
         clGetEventProfilingInfo CL_PROFILING_COMMAND_END] ++ rest)%list).
Proof.
  intros H dispatch. split; [|split].
  - apply (dispatch_single w H).
  - intros He. apply (main_dispatch_failed w H He).
  - intros He.
    assert (Hd : dispatched w = true)
      by (unfold dispatched; rewrite H; apply nonneg_of_le; exact He).
    destruct (main_reads_timestamps w Hd) as [rest ->]. eexists. reflexivity.
Qed.

(** [dispatch_checked_after_wait] in a world where the dispatch fails. *)
Lemma dispatch_checked_after_wait_witness :
  bound world_dispatch_fails = true /\
  main world_dispatch_fails =
    ((trace_staged world_dispatch_fails ++ trace_bind world_dispatch_fails ++
      [clEnqueueNDRangeKernel (live obj_queue) (live obj_kernel) ARRAY_SIZE;
       clWaitForEvents;
       printf "%s" [arg_str "clEnqueueNDRangeKernel failed"]])%list,
     halted (exited 1)).
Proof.
  split; [reflexivity|].
  apply (dispatch_checked_after_wait world_dispatch_fails); reflexivity.
Defined.

(** ** The tolerance (C10) *)

Lemma mismatch_def (output actual : spec_float) :
  mismatch output actual =
    F64.gtb (F64.of_float (SFabs (F32.sub output actual))) (F64.of_int 100000).
Proof. reflexivity. Qed.

Lemma reported_index_diagnostic (i : Z) (output actual : spec_float) :
  reported_index (diagnostic i output actual) = Some i.
Proof. reflexivity. Qed.

Lemma last_event_eq (t1 t2 : list event) (a b : event) :
  (t1 ++ [a])%list = (t2 ++ [b])%list -> t1 = t2 /\ a = b.
Proof. apply app_inj_tail. Qed.

(** C10.  The tolerance of the verifier is the constant [1e5], whose value
    is 100000: the test at an index is
    [(double) abs(expected - actual) > 100000], with the difference and its
    absolute value taken in single precision.  A run reports index [i] only
    when that test holds at [i].  The value expected at index [i] is
    [i + 10000], between 10000 and 109999, so that a read-back of [+0.0] is
    within the tolerance at every index up to 90000: a run whose read-back
    is [+0.0] at all these indices, and within the tolerance at the others,
    prints ["ALL PASSED"] and returns 0. *)
Theorem tolerance_is_1e5 (w : World) :
  read_back w = true ->
  (forall output actual,
     mismatch output actual =
       F64.gtb (F64.of_float (SFabs (F32.sub output actual))) (F64.of_int 100000)) /\
  represents (F64.of_int 100000) 100000 = true /\
  (forall t i output actual,
     fst (main w) =
       (t ++ [diagnostic i output actual;
              printf "%s" [arg_str "CHECK RESULT FAILED"]])%list ->
     0 <= i < ARRAY_SIZE /\ mismatch (expected w i) (readback w i) = true) /\
  (forall i, 0 <= i < ARRAY_SIZE ->
     represents (expected w i) (i + 10000) = true /\
     10000 <= i + 10000 <= 109999) /\
  (forall i, 0 <= i <= 90000 ->
     mismatch (expected w i) (S754_zero false) = false) /\
  ((forall i, 0 <= i <= 90000 -> readback w i = S754_zero false) ->
   (forall i, 90000 < i < ARRAY_SIZE ->
      mismatch (expected w i) (readback w i) = false) ->
   main w =
     ((trace_before_verify w ++ [printf "ALL PASSED" []] ++ trace_release w)%list,
      done 0)).
Proof.
  intros H. split; [exact mismatch_def|]. split; [reflexivity|].
  split; [|split; [|split]].
  - intros t i output actual Ht.
    destruct (first_mismatch_or_none
                (fun i => mismatch (expected w i) (readback w i))
                (Z.to_nat ARRAY_SIZE) 0) as [(i0 & Hi & Hbad & Hgood)|Hnone].
    + apply range_of_size in Hi.
      rewrite (main_first_mismatch w i0 H Hi Hbad Hgood) in Ht. cbn [fst] in Ht.
      change [diagnostic i output actual; printf "%s" [arg_str "CHECK RESULT FAILED"]]
        with ([diagnostic i output actual] ++
              [printf "%s" [arg_str "CHECK RESULT FAILED"]])%list in Ht.
      change [diagnostic i0 (expected w i0) (readback w i0);
              printf "%s" [arg_str "CHECK RESULT FAILED"]]
        with ([diagnostic i0 (expected w i0) (readback w i0)] ++
              [printf "%s" [arg_str "CHECK RESULT FAILED"]])%list in Ht.
      rewrite !app_assoc in Ht.
      apply last_event_eq in Ht as [Ht _].
      apply last_event_eq in Ht as [_ Hd].
      apply (f_equal reported_index) in Hd.
      rewrite !reported_index_diagnostic in Hd.
      assert (Hii : i0 = i) by congruence. subst i.
      split; assumption.
    + exfalso.
      rewrite (main_all_pass w H) in Ht
        by (intros j Hj; apply Hnone, range_of_size, Hj).
      cbn [fst] in Ht. unfold trace_release in Ht.
      change [diagnostic i output actual; printf "%s" [arg_str "CHECK RESULT FAILED"]]
        with ([diagnostic i output actual] ++
              [printf "%s" [arg_str "CHECK RESULT FAILED"]])%list in Ht.
      match type of Ht with
      | (_ ++ _ ++ [?a; ?b; ?c; ?d; ?e; ?f])%list = _ =>
          change [a; b; c; d; e; f] with ([a; b; c; d; e] ++ [f])%list in Ht
      end.
      rewrite !app_assoc in Ht.
      apply last_event_eq in Ht as [_ Hd]. discriminate Hd.
  - intros i Hi. split; [|unfold ARRAY_SIZE in Hi; lia].
    rewrite (expected_at w i Hi). apply (data_exact i Hi).
  - intros i Hi.
    assert (Hr : 0 <= i < ARRAY_SIZE) by (unfold ARRAY_SIZE; lia).
    rewrite (expected_at w i Hr). apply (data_exact i Hr). lia.
  - intros Hzero Hrest. apply (main_all_pass w H). intros i Hi.
    destruct (Z.le_gt_cases i 90000) as [Hle|Hgt].
    + rewrite Hzero by lia. rewrite (expected_at w i Hi).
      apply (data_exact i Hi). exact Hle.
    + apply Hrest. lia.
Qed.

Lemma world_zeros_readback (i : Z) :
  0 <= i < ARRAY_SIZE -> readback world_zeros i = zeros_up_to 90000 i.
Proof. reflexivity. Qed.

(** [tolerance_is_1e5] in a world where the read-back is [+0.0] at every
    index up to 90000. *)
Lemma tolerance_is_1e5_witness :
  read_back world_zeros = true /\
  readback world_zeros 90000 = S754_zero false /\
  main world_zeros =
    ((trace_before_verify world_zeros ++ [printf "ALL PASSED" []] ++
      trace_release world_zeros)%list, done 0).
Proof.
  split; [reflexivity|]. split; [reflexivity|].
  apply (tolerance_is_1e5 world_zeros); [reflexivity| |].
  - intros i Hi. rewrite world_zeros_readback by (unfold ARRAY_SIZE; lia).
    unfold zeros_up_to. destruct (Z.leb_spec i 90000); [reflexivity|lia].
  - intros i Hi.
    apply (zeros_pass world_zeros 90000);
      [lia | exact world_zeros_readback | unfold ARRAY_SIZE in *; lia].
Defined.

(** ** Where the program departs from its description *)

Lemma main_world_ok :
  main world_ok =
    ((trace_before_verify world_ok ++ [printf "ALL PASSED" []] ++
      trace_release world_ok)%list, done 0).
Proof.
  apply main_all_pass; [reflexivity|].
  apply world_ok_passes. reflexivity.
Qed.

(** C2.  [add.cl] cannot be opened and the uninitialised [status] that
    [build_program] tests after [fopen] holds 0: nothing is printed, the
    NULL stream is handed to [fseek] and the behaviour is undefined.  The
    failure message appears only when that variable happens to be
    negative, and then also when the file is there. *)
Theorem missing_source_not_detected :
  program_file (world_no_file 0) = None /\
  main (world_no_file 0) =
    ([gettimeofday; clGetPlatformIDs; clGetDeviceIDs CL_DEVICE_TYPE_GPU;
      clCreateContext (live obj_device); fopen "add.cl"],
     halted undefined_behaviour) /\
  main (world_no_file (-1)) =
    ([gettimeofday; clGetPlatformIDs; clGetDeviceIDs CL_DEVICE_TYPE_GPU;
      clCreateContext (live obj_device); fopen "add.cl";
      printf "%s" [arg_str "find opencl kernel failed"]],
     halted (exited 1)) /\
  program_file world_file_negative_garbage = Some add_cl /\
  main world_file_negative_garbage =
    ([gettimeofday; clGetPlatformIDs; clGetDeviceIDs CL_DEVICE_TYPE_GPU;
      clCreateContext (live obj_device); fopen "add.cl";
      printf "%s" [arg_str "find opencl kernel failed"]],
     halted (exited 1)).
Proof.
  repeat split; vm_compute; reflexivity.
Qed.

(** C3.  In a run where every call succeeds, the bias buffer is created
    and bound to slot 1, and [main] returns 0; the destructor of [runtime]
    then releases the kernel, the input buffer, the output buffer, the
    queue, the program and the context, once each and in this order.  The
    bias buffer is not released. *)
Theorem bias_buffer_not_released :
  snd (main world_ok) = done 0 /\
  bias_buffer (runtime_staged world_ok) = live (obj_mem bias_data) /\
  In (1, live (obj_mem bias_data)) (bound_args (fst (main world_ok))) /\
  released (fst (main world_ok)) =
    [live obj_kernel; live (obj_mem input_data); live (obj_mem output_data);
     live obj_queue; live obj_program; live obj_context] /\
  ~ In (live (obj_mem bias_data)) (released (fst (main world_ok))).
Proof.
  rewrite main_world_ok. cbn [fst snd].
  assert (Hrel : released (trace_before_verify world_ok ++
                           [printf "ALL PASSED" []] ++ trace_release world_ok) =
                 [live obj_kernel; live (obj_mem input_data);
                  live (obj_mem output_data);
                  live obj_queue; live obj_program; live obj_context])
    by (vm_compute; reflexivity).
  rewrite Hrel.
  split; [reflexivity|]. split; [reflexivity|]. split; [|split].
  - vm_compute. tauto.
  - reflexivity.
  - cbn [In]. intros H.
    repeat (destruct H as [H|H]; [discriminate H|]). exact H.
Qed.

Lemma zeros_mismatch_90001 : mismatch (expected_value 90001) (S754_zero false) = true.
Proof. vm_compute. reflexivity. Qed.

(** [main_first_mismatch], with the two reported values named. *)
Lemma main_first_mismatch_values (w : World) (i0 : Z) (output actual : spec_float) :
  read_back w = true ->
  0 <= i0 < ARRAY_SIZE ->
  expected w i0 = output -> readback w i0 = actual ->
  mismatch output actual = true ->
  (forall j, 0 <= j < i0 -> mismatch (expected w j) (readback w j) = false) ->
  main w =
    ((trace_before_verify w ++
      [diagnostic i0 output actual;
       printf "%s" [arg_str "CHECK RESULT FAILED"]])%list,
     halted (exited 1)).
Proof.
  intros H Hi <- <- Hbad Hgood. exact (main_first_mismatch w i0 H Hi Hbad Hgood).
Qed.

Lemma main_world_input_alloc_fails :
  main world_input_alloc_fails =
    ((trace_before_verify world_input_alloc_fails ++
      [diagnostic 90001 (expected_value 90001) (S754_zero false);
       printf "%s" [arg_str "CHECK RESULT FAILED"]])%list,
     halted (exited 1)).
Proof.
  assert (Hi : 0 <= 90001 < ARRAY_SIZE) by (unfold ARRAY_SIZE; lia).
  assert (Hz : forall i, 0 <= i < ARRAY_SIZE ->
                 readback world_input_alloc_fails i = S754_zero false).
  { intros i Hr.
    change (readback world_input_alloc_fails i) with (zeros_up_to (ARRAY_SIZE - 1) i).
    unfold zeros_up_to. destruct (Z.leb_spec i (ARRAY_SIZE - 1)); [reflexivity|lia]. }
  apply (main_first_mismatch_values world_input_alloc_fails 90001).
  - reflexivity.
  - exact Hi.
  - exact (expected_at world_input_alloc_fails 90001 Hi).
  - exact (Hz 90001 Hi).
  - exact zeros_mismatch_90001.
  - intros j Hj.
    assert (Hr : 0 <= j < ARRAY_SIZE) by (unfold ARRAY_SIZE; lia).
    rewrite (Hz j Hr), (expected_at _ _ Hr). apply (data_exact j Hr). lia.
Qed.

(** C4.  The creation of the input buffer fails with status -4 and the
    other two succeed: the status that is tested is the one of the output
    buffer, so nothing is printed about buffers, the null input handle is
    bound to slot 0 and the run goes on through the dispatch and the
    read-back, up to the comparison of the results. *)
Theorem failed_buffer_creation_not_detected :
  st_CreateBuffer world_input_alloc_fails input_data = -4 /\
  existsb (prints "create buffer failed") (fst (main world_input_alloc_fails)) = false /\
  bound_args (fst (main world_input_alloc_fails)) =
    [(0, null); (1, live (obj_mem bias_data)); (2, live (obj_mem output_data))] /\
  existsb (prints "CHECK RESULT FAILED") (fst (main world_input_alloc_fails)) = true /\
  (exists rest,
     fst (main world_input_alloc_fails) =
       (trace_staged world_input_alloc_fails ++
        clSetKernelArg (live obj_kernel) 0 null :: rest)%list).
Proof.
  rewrite main_world_input_alloc_fails. cbn [fst].
  split; [reflexivity|].
  split; [vm_compute; reflexivity|].
  split; [vm_compute; reflexivity|].
  split; [vm_compute; reflexivity|].
  unfold trace_before_verify. rewrite <- !app_assoc.
  eexists. reflexivity.
Qed.

Lemma main_world_finish_fails :
  main world_finish_fails =
    ((trace_before_verify world_finish_fails ++ [printf "ALL PASSED" []] ++
      trace_release world_finish_fails)%list, done 0).
Proof.
  apply main_all_pass; [reflexivity|].
  apply world_ok_passes. reflexivity.
Qed.

(** C5.  [clFinish] answers -5 and every other call succeeds: the status is
    stored and never tested, the run prints ["ALL PASSED"] and [main]
    returns 0. *)
Theorem finish_status_ignored :
  st_Finish world_finish_fails = -5 /\
  In (clFinish (live obj_queue)) (fst (main world_finish_fails)) /\
  In (printf "ALL PASSED" []) (fst (main world_finish_fails)) /\
  (forall message : string,
     existsb (prints message) (fst (main world_finish_fails)) = false) /\
  snd (main world_finish_fails) = done 0.
Proof.
  rewrite main_world_finish_fails. cbn [fst snd].
  split; [reflexivity|]. split; [|split; [|split]].
  - vm_compute. tauto.
  - vm_compute. tauto.
  - intros message. reflexivity.
  - reflexivity.
Qed.

(** * Further properties of the program *)

(** ** Rounding of small values *)

Lemma digits2_pos_bounds (m : positive) :
  2 ^ (Zpos (digits2_pos m) - 1) <= Zpos m < 2 ^ Zpos (digits2_pos m).
Proof.
  induction m as [m IH|m IH|]; cbn [digits2_pos].
  - rewrite Pos2Z.inj_succ. replace (Z.succ (Zpos (digits2_pos m)) - 1)
      with (Z.succ (Zpos (digits2_pos m) - 1)) by lia.
    rewrite !Z.pow_succ_r by lia. lia.
  - rewrite Pos2Z.inj_succ. replace (Z.succ (Zpos (digits2_pos m)) - 1)
      with (Z.succ (Zpos (digits2_pos m) - 1)) by lia.
    rewrite !Z.pow_succ_r by lia. lia.
  - cbn. lia.
Qed.

Lemma shift_left_value (m k : positive) :
  Zpos (Pos.iter xO m k) = Zpos m * 2 ^ Zpos k.
Proof.
  induction k as [|k IH] using Pos.peano_ind.
  - cbn [Pos.iter]. rewrite Pos2Z.inj_xO. lia.
  - rewrite Pos.iter_succ, Pos2Z.inj_xO, IH, Pos2Z.inj_succ, Z.pow_succ_r by lia.
    lia.
Qed.

Lemma shift_left_digits (m k : positive) :
  digits2_pos (Pos.iter xO m k) = (digits2_pos m + k)%positive.
Proof.
  induction k as [|k IH] using Pos.peano_ind.
  - cbn [Pos.iter digits2_pos]. lia.
  - rewrite Pos.iter_succ. cbn [digits2_pos]. rewrite IH. lia.
Qed.

Lemma shr_1_shifted (m k : Z) (mrs : shr_record) :
  0 <= m -> 0 <= k -> shifted m k mrs -> shifted m (k + 1) (shr_1 mrs).
Proof.
  intros Hm Hk [Hq Hz].
  assert (Hpow : 0 < 2 ^ k) by (apply Z.pow_pos_nonneg; lia).
  assert (Hq2 : m / 2 ^ (k + 1) = m / 2 ^ k / 2)
    by (rewrite Z.pow_add_r, Z.pow_1_r, Z.div_div by lia; reflexivity).
  assert (Hmod : m mod 2 ^ (k + 1) = 0 -> m mod 2 ^ k = 0 /\ (m / 2 ^ k) mod 2 = 0).
  { rewrite Z.pow_add_r, Z.pow_1_r by lia. intros H.
    rewrite Z.rem_mul_r in H by lia.
    pose proof (Z.mod_pos_bound m (2 ^ k) Hpow).
    pose proof (Z.mod_pos_bound (m / 2 ^ k) 2 ltac:(lia)). nia. }
  pose proof (Z.div_pos m (2 ^ k) Hm Hpow) as Hnn.
  destruct mrs as [q r s]. cbn [shr_m shr_r shr_s] in *. subst q.
  unfold shifted. rewrite Hq2.
  destruct (m / 2 ^ k) as [|p|p] eqn:E; [| |lia].
  - cbn [shr_1 shr_m shr_r shr_s]. split; [reflexivity|].
    intros H. destruct (Hmod H) as [H1 _]. destruct (Hz H1) as [-> ->]. auto.
  - destruct p as [p|p|]; cbn [shr_1 shr_m shr_r shr_s].
    + split; [rewrite Pos2Z.inj_xI; apply Z.div_unique with 1; lia|].
      intros H. destruct (Hmod H) as [_ H2]. exfalso.
      rewrite Pos2Z.inj_xI in H2.
      replace (2 * Zpos p + 1) with (1 + Zpos p * 2) in H2 by lia.
      rewrite Z.mod_add in H2 by lia. discriminate H2.
    + split; [rewrite Pos2Z.inj_xO; apply Z.div_unique with 0; lia|].
      intros H. destruct (Hmod H) as [H1 _]. destruct (Hz H1) as [-> ->]. auto.
    + split; [reflexivity|].
      intros H. destruct (Hmod H) as [_ H2]. discriminate H2.
Qed.

Lemma iter_pos_shifted (m : Z) (p : positive) :
  0 <= m ->
  forall k mrs, 0 <= k -> shifted m k mrs ->
                shifted m (k + Zpos p) (iter_pos shr_1 p mrs).
Proof.
  intros Hm. induction p as [p IH|p IH|]; intros k mrs Hk H; cbn [iter_pos].
  - replace (k + Zpos p~1) with (k + 1 + Zpos p + Zpos p) by lia.
    apply IH; [lia|]. apply IH; [lia|]. apply shr_1_shifted; assumption.
  - replace (k + Zpos p~0) with (k + Zpos p + Zpos p) by lia.
    apply IH; [lia|]. apply IH; assumption.
  - apply shr_1_shifted; assumption.
Qed.

Lemma shr_exact_shifted (m e n : Z) :
  0 <= m ->
  shifted m (Z.max 0 n) (fst (shr (shr_record_of_loc m loc_Exact) e n)) /\
  snd (shr (shr_record_of_loc m loc_Exact) e n) = e + Z.max 0 n.
Proof.
  intros Hm.
  assert (H0 : shifted m 0 (shr_record_of_loc m loc_Exact)).
  { split; cbn; [now rewrite Z.div_1_r|auto]. }
  destruct n as [|p|p]; cbn [shr fst snd].
  - split; [exact H0|]. cbn. lia.
  - rewrite Z.max_r by lia. split; [|reflexivity].
    apply (iter_pos_shifted m p Hm 0 _ (Z.le_refl 0) H0).
  - rewrite Z.max_l by lia. split; [exact H0|]. lia.
Qed.

Lemma round_nearest_even_bounds (m : Z) (l : location) :
  m <= round_nearest_even m l <= m + 1.
Proof.
  destruct l as [|[| |]]; cbn [round_nearest_even]; try lia.
  destruct (Z.even m); lia.
Qed.

Lemma loc_exact_of_bits (mrs : shr_record) :
  shr_r mrs = false -> shr_s mrs = false -> loc_of_shr_record mrs = loc_Exact.
Proof. destruct mrs as [q r s]. cbn. intros -> ->. reflexivity. Qed.

Section SmallValues.

Variables prec emax B : Z.
Hypothesis Hprec : 17 <= prec.
Hypothesis Hemax : prec <= emax.
Hypothesis HB : 0 <= B < 2 ^ 17.

Lemma small_digits (m : positive) (e : Z) :
  small B (Zpos m) e -> Zpos (digits2_pos m) + e <= 17.
Proof.
  intros [He Hm]. change (2 ^ 17) with 131072 in HB.
  pose proof (digits2_pos_bounds m) as [Hd _].
  assert (H17 : B * 2 ^ (- e) < 2 ^ (17 - e)).
  { replace (17 - e) with (17 + - e) by lia. rewrite Z.pow_add_r by lia.
    assert (0 < 2 ^ (- e)) by (apply Z.pow_pos_nonneg; lia).
    change (2 ^ 17) with 131072. nia. }
  assert (Hlt : 2 ^ (Zpos (digits2_pos m) - 1) < 2 ^ (17 - e)) by lia.
  apply Z.pow_lt_mono_r_iff in Hlt; lia.
Qed.

Lemma fexp_small (m : positive) (e : Z) :
  small B (Zpos m) e ->
  let f := fexp prec emax (Zpos (digits2_pos m) + e) in
  emin prec emax <= f <= 0 /\ Zpos (digits2_pos m) + e - prec <= f.
Proof.
  intros H. pose proof (small_digits m e H). unfold fexp, emin. lia.
Qed.

(** Rounding a small value that is already aligned at or below its
    canonical exponent: the mantissa and exponent that are packed are
    small again, and the mantissa has at most [prec] bits. *)
Lemma binary_round_aux_packs (s : bool) (mz : positive) (ez : Z) :
  small B (Zpos mz) ez ->
  ez <= fexp prec emax (Zpos (digits2_pos mz) + ez) ->
  exists m4 e4,
    binary_round_aux prec emax s (Zpos mz) ez loc_Exact = pack prec emax s m4 e4 /\
    0 <= m4 < 2 ^ prec /\ emin prec emax <= e4 /\ small B m4 e4.
Proof.
  intros Hsmall Hez.
  destruct (fexp_small mz ez Hsmall) as [[Hfmin Hf0] Hfd].
  destruct Hsmall as [Hez0 Hval].
  remember (fexp prec emax (Zpos (digits2_pos mz) + ez)) as f eqn:Ef.
  remember (f - ez) as n eqn:En.
  assert (Hn : 0 <= n) by lia.
  pose proof (digits2_pos_bounds mz) as [_ Hdig].
  assert (Hpn : 0 < 2 ^ n) by (apply Z.pow_pos_nonneg; lia).
  assert (HG : 0 < 2 ^ (- f)) by (apply Z.pow_pos_nonneg; lia).
  assert (Hsplit : 2 ^ (- ez) = 2 ^ (- f) * 2 ^ n)
    by (rewrite <- Z.pow_add_r by lia; f_equal; lia).
  unfold binary_round_aux.
  (* first shift *)
  unfold shr_fexp at 1. cbn [Zdigits2]. rewrite <- Ef, <- En.
  destruct (shr_exact_shifted (Zpos mz) ez n ltac:(lia)) as [[Hq Hbits] He'].
  destruct (shr (shr_record_of_loc (Zpos mz) loc_Exact) ez n) as [mrs' e'].
  cbn [fst snd] in Hq, Hbits, He'. rewrite Z.max_r in * by lia.
  assert (Ee' : e' = f) by lia. clear He'. subst e'.
  remember (shr_m mrs') as m1 eqn:Em1.
  remember (round_nearest_even m1 (loc_of_shr_record mrs')) as m2 eqn:Em2.
  pose proof (round_nearest_even_bounds m1 (loc_of_shr_record mrs')) as Hrne.
  rewrite <- Em2 in Hrne.
  assert (Hm1 : 0 <= m1) by (rewrite Hq; apply Z.div_pos; lia).
  pose proof (Z.div_mod (Zpos mz) (2 ^ n) ltac:(lia)) as Hdm.
  pose proof (Z.mod_pos_bound (Zpos mz) (2 ^ n) Hpn) as Hmb.
  rewrite <- Hq in Hdm.
  assert (Hm2G : m2 <= B * 2 ^ (- f)).
  { destruct (Z.eq_dec (Zpos mz mod 2 ^ n) 0) as [Hz|Hnz].
    - destruct (Hbits Hz) as [Hr Hs].
      rewrite Em2, (loc_exact_of_bits mrs' Hr Hs).
      cbn [round_nearest_even]. nia.
    - assert (m1 < B * 2 ^ (- f)) by nia. lia. }
  assert (Hm2P : m2 <= 2 ^ prec).
  { assert (Zpos mz < 2 ^ prec * 2 ^ n).
    { rewrite <- Z.pow_add_r by lia.
      apply Z.lt_le_trans with (1 := Hdig).
      apply Z.pow_le_mono_r; lia. }
    assert (m1 < 2 ^ prec) by nia. lia. }
  assert (Hm2 : 0 <= m2) by lia.
  clear Em2 Hrne Hdm Hmb Hq Hbits Em1 Hm1 m1 mrs'.
  (* second shift *)
  unfold shr_fexp.
  remember (fexp prec emax (Zdigits2 m2 + f) - f) as n2 eqn:En2.
  destruct (shr_exact_shifted m2 f n2 Hm2) as [[Hq2 _] He''].
  destruct (shr (shr_record_of_loc m2 loc_Exact) f n2) as [mrs'' e''].
  cbn [fst snd] in Hq2, He''.
  exists (shr_m mrs''), e''. split; [reflexivity|].
  rewrite Hq2. clear Hq2 mrs''.
  assert (Hk : Z.max 0 n2 = 0 /\ m2 < 2 ^ prec \/
               Z.max 0 n2 = 1 /\ m2 = 2 ^ prec).
  { destruct m2 as [|p2|p2]; [| |lia].
    - cbn [Zdigits2] in En2. left. split; [|apply Z.pow_pos_nonneg; lia].
      unfold fexp in En2. fold (emin prec emax) in En2. lia.
    - pose proof (digits2_pos_bounds p2) as [Hd2lo Hd2hi].
      cbn [Zdigits2] in En2.
      assert (Hd2 : Zpos (digits2_pos p2) <= prec + 1).
      { assert (Hlt : 2 ^ (Zpos (digits2_pos p2) - 1) < 2 ^ (prec + 1)).
        { rewrite Z.pow_add_r, Z.pow_1_r by lia.
          assert (0 < 2 ^ prec) by (apply Z.pow_pos_nonneg; lia). lia. }
        apply Z.pow_lt_mono_r_iff in Hlt; lia. }
      unfold fexp in En2. fold (emin prec emax) in En2.
      destruct (Z.le_gt_cases (Zpos (digits2_pos p2)) prec) as [Hle|Hgt].
      + left. split; [lia|].
        apply Z.lt_le_trans with (1 := Hd2hi). apply Z.pow_le_mono_r; lia.
      + right. split; [lia|].
        replace (Zpos (digits2_pos p2)) with (prec + 1) in Hd2lo by lia.
        replace (prec + 1 - 1) with prec in Hd2lo by lia. lia. }
  destruct Hk as [[Hk Hlt]|[Hk Heq]]; rewrite Hk in *.
  - rewrite Z.pow_0_r, Z.div_1_r. replace e'' with f by lia.
    repeat split; lia.
  - assert (Hf1 : f < 0).
    { destruct (Z.eq_dec f 0) as [Hf|]; [|lia]. exfalso.
      rewrite Hf in Hm2G. cbn in Hm2G. change (2 ^ 17) with 131072 in HB.
      assert (2 ^ 17 <= 2 ^ prec) by (apply Z.pow_le_mono_r; lia).
      change (2 ^ 17) with 131072 in *. lia. }
    assert (Hpp : 2 ^ prec = 2 ^ (prec - 1) * 2).
    { replace prec with (prec - 1 + 1) at 1 by lia.
      rewrite Z.pow_add_r, Z.pow_1_r by lia. reflexivity. }
    assert (Hpos : 0 < 2 ^ (prec - 1)) by (apply Z.pow_pos_nonneg; lia).
    assert (Hhalf : m2 / 2 ^ 1 = 2 ^ (prec - 1)).
    { rewrite Heq, Z.pow_1_r, Hpp, Z.div_mul by lia. reflexivity. }
    assert (Hs2 : 2 ^ (- f) = 2 ^ (- (f + 1)) * 2).
    { replace (- f) with (- (f + 1) + 1) by lia.
      rewrite Z.pow_add_r, Z.pow_1_r by lia. reflexivity. }
    rewrite Hhalf. replace e'' with (f + 1) by lia.
    repeat split; lia.
Qed.

Lemma pack_small (s : bool) (m e : Z) :
  0 <= m < 2 ^ prec -> emin prec emax <= e -> small B m e ->
  pack prec emax s m e = S754_zero s \/
  exists m' e',
    pack prec emax s m e = S754_finite s m' e' /\
    emin prec emax <= e' /\ Zpos m' < 2 ^ prec /\ small B (Zpos m') e'.
Proof.
  intros Hm He Hs. destruct m as [|p|p]; [left; reflexivity| |lia].
  right. exists p, e. cbn [pack].
  destruct Hs as [He0 Hv].
  replace (e <=? emax - prec) with true by (symmetry; apply Z.leb_le; lia).
  repeat split; try lia.
Qed.

Lemma binary_round_aux_small (s : bool) (mz : positive) (ez : Z) :
  small B (Zpos mz) ez ->
  ez <= fexp prec emax (Zpos (digits2_pos mz) + ez) ->
  binary_round_aux prec emax s (Zpos mz) ez loc_Exact = S754_zero s \/
  exists m' e',
    binary_round_aux prec emax s (Zpos mz) ez loc_Exact = S754_finite s m' e' /\
    emin prec emax <= e' /\ Zpos m' < 2 ^ prec /\ small B (Zpos m') e'.
Proof.
  intros Hsmall Hez.
  destruct (binary_round_aux_packs s mz ez Hsmall Hez)
    as (m4 & e4 & -> & Hm4 & He4 & Hs4).
  apply pack_small; assumption.
Qed.

(** Rounding a small value gives zero or a small value of at most [prec]
    bits: the bound [B] is on the grid of every exponent in play. *)
Lemma binary_round_small (s : bool) (m : positive) (e : Z) :
  small B (Zpos m) e ->
  binary_round prec emax s m e = S754_zero s \/
  exists m' e',
    binary_round prec emax s m e = S754_finite s m' e' /\
    emin prec emax <= e' /\ Zpos m' < 2 ^ prec /\ small B (Zpos m') e'.
Proof.
  intros Hsmall.
  destruct (fexp_small m e Hsmall) as [[Hfmin Hf0] Hfd].
  unfold binary_round, shl_align.
  set (f := fexp prec emax (Zpos (digits2_pos m) + e)) in *.
  destruct (f - e) as [|k|k] eqn:Ek.
  - apply binary_round_aux_small; [exact Hsmall|]. fold f. lia.
  - apply binary_round_aux_small; [exact Hsmall|]. fold f. lia.
  - apply binary_round_aux_small.
    + destruct Hsmall as [He Hm]. split; [lia|].
      rewrite shift_left_value.
      replace (- f) with (- e + Zpos k) by lia.
      rewrite Z.pow_add_r by lia.
      assert (0 < 2 ^ Zpos k) by (apply Z.pow_pos_nonneg; lia). nia.
    + rewrite shift_left_digits, Pos2Z.inj_add.
      replace (Zpos (digits2_pos m) + Zpos k + f)
        with (Zpos (digits2_pos m) + e) by lia.
      fold f. lia.
Qed.

End SmallValues.

(** ** The comparison with [1e5] in double precision *)

Lemma loc_of_exact_record (m : Z) :
  loc_of_shr_record (shr_record_of_loc m loc_Exact) = loc_Exact.
Proof. reflexivity. Qed.

(** The promotion to [double] of a non-negative [float] of at most 24 bits
    is exact: the mantissa is shifted to 53 bits. *)
Lemma promote_exact (m : positive) (e : Z) :
  Zpos m < 2 ^ 24 -> -149 <= e <= 0 ->
  exists k : positive,
    Zpos (digits2_pos m) + Zpos k = 53 /\
    F64.of_float (S754_finite false m e) =
      S754_finite false (Pos.iter xO m k) (e - Zpos k).
Proof.
  intros Hm He.
  pose proof (digits2_pos_bounds m) as [Hlo _].
  assert (Hd : Zpos (digits2_pos m) <= 24).
  { assert (Hlt : 2 ^ (Zpos (digits2_pos m) - 1) < 2 ^ 24) by lia.
    apply Z.pow_lt_mono_r_iff in Hlt; lia. }
  destruct (53 - Zpos (digits2_pos m)) as [|k|k] eqn:Ek; try lia.
  exists k. split; [lia|].
  unfold F64.of_float. cbn [cond_Zopp binary_normalize].
  unfold binary_round, shl_align, fexp, emin, F64.prec, F64.emax.
  replace (Z.max (Zpos (digits2_pos m) + e - 53) (3 - 1024 - 53))
    with (e - Zpos k) by lia.
  replace (e - Zpos k - e) with (Zneg k) by lia.
  unfold binary_round_aux, shr_fexp. cbn [Zdigits2].
  rewrite shift_left_digits, Pos2Z.inj_add.
  unfold fexp, emin.
  replace (Z.max (Zpos (digits2_pos m) + Zpos k + (e - Zpos k) - 53) (3 - 1024 - 53)
           - (e - Zpos k)) with 0 by lia.
  cbn [shr]. rewrite loc_of_exact_record.
  cbn [round_nearest_even shr_m shr_record_of_loc Zdigits2].
  rewrite shift_left_digits, Pos2Z.inj_add.
  replace (Z.max (Zpos (digits2_pos m) + Zpos k + (e - Zpos k) - 53) (3 - 1024 - 53)
           - (e - Zpos k)) with 0 by lia.
  cbn [shr shr_m].
  replace (e - Zpos k <=? 1024 - 53) with true by (symmetry; apply Z.leb_le; lia).
  reflexivity.
Qed.

Lemma F64_100000 :
  F64.of_int 100000 = S754_finite false 6871947673600000 (-36).
Proof. reflexivity. Qed.

(** A small non-negative [float] is not greater than [1e5]. *)
Lemma small_not_greater (m : positive) (e : Z) :
  Zpos m < 2 ^ 24 -> -149 <= e -> small 100000 (Zpos m) e ->
  F64.gtb (F64.of_float (S754_finite false m e)) (F64.of_int 100000) = false.
Proof.
  intros Hm He [He0 Hv].
  destruct (promote_exact m e Hm ltac:(lia)) as (k & Hk & ->).
  rewrite F64_100000. unfold F64.gtb, SFltb, SFcompare.
  pose proof (digits2_pos_bounds (Pos.iter xO m k)) as [Hlo _].
  rewrite shift_left_digits, Pos2Z.inj_add, Hk in Hlo.
  change (2 ^ (53 - 1)) with 4503599627370496 in Hlo.
  assert (Hval : Zpos (Pos.iter xO m k) <= 100000 * 2 ^ (- (e - Zpos k))).
  { rewrite shift_left_value.
    replace (- (e - Zpos k)) with (- e + Zpos k) by lia.
    rewrite Z.pow_add_r by lia.
    assert (0 < 2 ^ Zpos k) by (apply Z.pow_pos_nonneg; lia). nia. }
  set (f := e - Zpos k) in *.
  assert (Hf : f <= -36).
  { assert (H17 : 100000 * 2 ^ (- f) < 2 ^ (17 - f)).
    { replace (17 - f) with (17 + - f) by lia. rewrite Z.pow_add_r by lia.
      assert (0 < 2 ^ (- f)) by (apply Z.pow_pos_nonneg; unfold f; lia).
      change (2 ^ 17) with 131072. nia. }
    assert (Hlt : 2 ^ 52 < 2 ^ (17 - f))
      by (change (2 ^ 52) with 4503599627370496; lia).
    apply Z.pow_lt_mono_r_iff in Hlt; unfold f in *; lia. }
  destruct (Z.compare_spec (-36) f) as [Heq|Hlt|Hgt]; [|lia|reflexivity].
  rewrite <- Heq in Hval. change (100000 * 2 ^ (- -36)) with 6871947673600000 in Hval.
  rewrite Pos.compare_cont_spec. cbn [Pos.switch_Eq].
  destruct (Pos.compare_spec 6871947673600000 (Pos.iter xO m k)) as [H|H|H];
    try reflexivity.
  exfalso. apply Pos2Z.pos_lt_pos in H. lia.
Qed.

(** ** The subtraction is exact before it is rounded *)

Lemma shl_align_value (m : positive) (e ez : Z) :
  ez <= e -> Zpos (fst (shl_align m e ez)) = Zpos m * 2 ^ (e - ez).
Proof.
  intros H. unfold shl_align.
  destruct (ez - e) as [|d|d] eqn:Ed; cbn [fst]; try lia.
  - replace (e - ez) with 0 by lia. cbn. lia.
  - rewrite shift_left_value. f_equal. f_equal. lia.
Qed.

Lemma sub_finite (sx : bool) (mx : positive) (ex : Z)
    (sy : bool) (my : positive) (ey : Z) :
  F32.sub (S754_finite sx mx ex) (S754_finite sy my ey) =
    binary_normalize F32.prec F32.emax
      (exact_difference sx mx ex sy my ey) (Z.min ex ey) false.
Proof.
  unfold F32.sub, SFsub, exact_difference.
  rewrite !shl_align_value by lia. reflexivity.
Qed.

(** When the exact difference is at most 100000 in absolute value, the
    test stays silent. *)
Lemma small_difference_passes (sx : bool) (mx : positive) (ex : Z)
    (sy : bool) (my : positive) (ey : Z) :
  small 100000 (Z.abs (exact_difference sx mx ex sy my ey)) (Z.min ex ey) ->
  mismatch (S754_finite sx mx ex) (S754_finite sy my ey) = false.
Proof.
  intros Hs. rewrite mismatch_def, sub_finite. unfold F32.prec, F32.emax.
  destruct (exact_difference sx mx ex sy my ey) as [|M|M];
    cbn [Z.abs binary_normalize] in *.
  - reflexivity.
  - destruct (binary_round_small 24 128 100000 ltac:(lia) ltac:(lia) ltac:(lia) false M _ Hs)
      as [->|(m' & e' & -> & He' & Hm' & Hs')]; [reflexivity|].
    cbn [SFabs]. apply small_not_greater; assumption.
  - destruct (binary_round_small 24 128 100000 ltac:(lia) ltac:(lia) ltac:(lia) true M _ Hs)
      as [->|(m' & e' & -> & He' & Hm' & Hs')]; [reflexivity|].
    cbn [SFabs]. apply small_not_greater; assumption.
Qed.

(** ** The expected values are canonical single-precision numbers *)

Lemma add_finite (sx : bool) (mx : positive) (ex : Z)
    (sy : bool) (my : positive) (ey : Z) :
  F32.add (S754_finite sx mx ex) (S754_finite sy my ey) =
    binary_normalize F32.prec F32.emax
      (cond_Zopp sx (Zpos mx * 2 ^ (ex - Z.min ex ey)) +
       cond_Zopp sy (Zpos my * 2 ^ (ey - Z.min ex ey))) (Z.min ex ey) false.
Proof.
  unfold F32.add, SFadd. rewrite !shl_align_value by lia. reflexivity.
Qed.

Lemma of_int_small (z : Z) :
  0 < z < 2 ^ 17 ->
  F32.of_int z = S754_zero false \/
  exists m e, F32.of_int z = S754_finite false m e /\
              -149 <= e /\ Zpos m < 2 ^ 24 /\ small z (Zpos m) e.
Proof.
  intros Hz. destruct z as [|p|p]; try lia.
  unfold F32.of_int. cbn [binary_normalize].
  apply (binary_round_small 24 128 (Zpos p)); try lia.
  split; [lia|]. cbn. lia.
Qed.

Lemma expected_value_canonical (i : Z) :
  0 <= i < ARRAY_SIZE -> canonical32 (expected_value i).
Proof.
  intros Hi.
  destruct (data_exact i Hi) as (Hin & _ & _ & Hfin & _).
  unfold ARRAY_SIZE in Hi. unfold expected_value in *. rewrite Hin in *.
  assert (Hbias : bias_value = S754_finite false 10240000 (-10)) by reflexivity.
  rewrite Hbias in *.
  destruct (Z.eq_dec i 0) as [->|Hnz].
  { exists 10240000%positive, (-10). repeat split; lia. }
  destruct (of_int_small i) as [Hz|(m & e & Hm & He & Hm24 & [He0 Hs])].
  { change (2 ^ 17) with 131072. lia. }
  { rewrite Hz. exists 10240000%positive, (-10). repeat split; lia. }
  rewrite Hm in *. rewrite add_finite in *. cbn [cond_Zopp] in *.
  set (ez := Z.min (-10) e) in *.
  assert (Hsum : small (i + 10000)
                   (Zpos 10240000 * 2 ^ (-10 - ez) + Zpos m * 2 ^ (e - ez)) ez).
  { split; [unfold ez; lia|].
    assert (H1 : 2 ^ (- ez) = 2 ^ 10 * 2 ^ (-10 - ez))
      by (rewrite <- Z.pow_add_r by (unfold ez; lia); f_equal; lia).
    assert (H2 : 2 ^ (- ez) = 2 ^ (- e) * 2 ^ (e - ez))
      by (rewrite <- Z.pow_add_r by (unfold ez; lia); f_equal; lia).
    assert (0 < 2 ^ (-10 - ez)) by (apply Z.pow_pos_nonneg; unfold ez; lia).
    assert (0 < 2 ^ (e - ez)) by (apply Z.pow_pos_nonneg; unfold ez; lia).
    replace ((i + 10000) * 2 ^ (- ez))
      with (i * 2 ^ (- ez) + 10000 * 2 ^ (- ez)) by ring.
    rewrite H2 at 1. rewrite H1. change (2 ^ 10) with 1024. nia. }
  destruct (Zpos 10240000 * 2 ^ (-10 - ez) + Zpos m * 2 ^ (e - ez))
    as [|S|S] eqn:ES; cbn [binary_normalize] in *.
  - discriminate Hfin.
  - unfold F32.prec, F32.emax in *.
    destruct (binary_round_small 24 128 (i + 10000) ltac:(lia) ltac:(lia)
                ltac:(change (2 ^ 17) with 131072; lia) false S ez Hsum)
      as [Hz|(m' & e' & Hr & He' & Hm' & [He'0 _])].
    + rewrite Hz in Hfin. discriminate Hfin.
    + rewrite Hr. exists m', e'. unfold emin in He'. repeat split; lia.
  - assert (0 < 2 ^ (-10 - ez)) by (apply Z.pow_pos_nonneg; unfold ez; lia).
    assert (0 < 2 ^ (e - ez)) by (apply Z.pow_pos_nonneg; unfold ez; lia).
    lia.
Qed.

(** ** The value of a float, scaled to an integer *)

Lemma SF2Q_scaled (s : bool) (m : positive) (e z : Z) :
  z <= e -> z <= 0 ->
  exists q, SF2Q (S754_finite s m e) = Some q /\
            (q * inject_Z (2 ^ (- z)) ==
             inject_Z (cond_Zopp s (Zpos m * 2 ^ (e - z))))%Q.
Proof.
  intros Hze Hz. cbn [SF2Q].
  assert (Hpz : 0 < 2 ^ (- z)) by (apply Z.pow_pos_nonneg; lia).
  eexists. split; [reflexivity|].
  destruct e as [|p|p].
  - replace (0 - z) with (- z) by lia. rewrite Z.pow_0_r.
    destruct s; cbn [cond_Zopp]; unfold Qeq; cbn [Qnum Qden Qmult Qopp inject_Z];
      rewrite ?Pos.mul_1_r, ?Z.mul_1_r; ring.
  - assert (H : Zpos m * 2 ^ (Zpos p - z) = Zpos m * 2 ^ Zpos p * 2 ^ (- z)).
    { replace (Zpos p - z) with (Zpos p + - z) by lia.
      rewrite Z.pow_add_r by lia. ring. }
    rewrite H.
    destruct s; cbn [cond_Zopp]; unfold Qeq; cbn [Qnum Qden Qmult Qopp inject_Z];
      rewrite ?Pos.mul_1_r, ?Z.mul_1_r; ring.
  - assert (H : 2 ^ (- z) = 2 ^ (Zneg p - z) * 2 ^ Zpos p).
    { rewrite <- Z.pow_add_r by lia. f_equal. lia. }
    destruct s; cbn [cond_Zopp]; unfold Qeq;
      cbn [Qnum Qden Qmult Qopp inject_Z].
    all: rewrite ?Pos.mul_1_r, ?Z.mul_1_r, ?Pos2Z.inj_pow, H; change (Zpos 2) with 2; ring.
Qed.

(** A reported mismatch between two finite floats means that their exact
    values are more than 100000 apart. *)
Lemma mismatch_finite_exceeds (sx : bool) (mx : positive) (ex : Z)
    (sy : bool) (my : positive) (ey : Z) :
  ex <= 0 ->
  mismatch (S754_finite sx mx ex) (S754_finite sy my ey) = true ->
  exists qx qy,
    SF2Q (S754_finite sx mx ex) = Some qx /\
    SF2Q (S754_finite sy my ey) = Some qy /\
    (100000 < Qabs (qx - qy))%Q.
Proof.
  intros Hex Hbad.
  set (ez := Z.min ex ey).
  destruct (SF2Q_scaled sx mx ex ez ltac:(unfold ez; lia) ltac:(unfold ez; lia))
    as (qx & Hqx & Ex).
  destruct (SF2Q_scaled sy my ey ez ltac:(unfold ez; lia) ltac:(unfold ez; lia))
    as (qy & Hqy & Ey).
  exists qx, qy. split; [exact Hqx|]. split; [exact Hqy|].
  set (M := exact_difference sx mx ex sy my ey).
  assert (Hbig : 100000 * 2 ^ (- ez) < Z.abs M).
  { destruct (Z.lt_ge_cases (100000 * 2 ^ (- ez)) (Z.abs M)) as [H|H]; [exact H|].
    exfalso.
    assert (Hs : small 100000 (Z.abs M) ez) by (split; [unfold ez; lia|exact H]).
    rewrite (small_difference_passes sx mx ex sy my ey Hs) in Hbad.
    discriminate Hbad. }
  assert (Hpz : 0 < 2 ^ (- ez)) by (apply Z.pow_pos_nonneg; unfold ez; lia).
  assert (Hdiff : ((qx - qy) * inject_Z (2 ^ (- ez)) == inject_Z M)%Q).
  { unfold M, exact_difference. fold ez. unfold Z.sub.
    rewrite inject_Z_plus, inject_Z_opp, <- Ex, <- Ey. ring. }
  assert (Habs : (Qabs (qx - qy) * inject_Z (2 ^ (- ez)) == inject_Z (Z.abs M))%Q).
  { rewrite <- (Qabs_pos (inject_Z (2 ^ (- ez)))).
    - rewrite <- Qabs_Qmult, Hdiff. reflexivity.
    - change 0%Q with (inject_Z 0). rewrite <- Zle_Qle. lia. }
  apply Qmult_lt_r with (z := inject_Z (2 ^ (- ez))).
  - change 0%Q with (inject_Z 0). rewrite <- Zlt_Qlt. exact Hpz.
  - rewrite Habs. change 100000%Q with (inject_Z 100000).
    rewrite <- inject_Z_mult, <- Zlt_Qlt. exact Hbig.
Qed.

(** Open [main] when the device is found ([Hdev]). *)
Ltac open_main w Hdev :=
  let Et_dev := fresh "Et_dev" in
  let En := fresh "En" in
  unfold trace_program, trace_context, trace_buffers;
  remember (fst (init_device w)) as t_dev eqn:Et_dev;
  unfold main, check_status;
  remember (Z.to_nat ARRAY_SIZE) as n eqn:En;
  runtime_fields; unfold created;
  clear Et_dev En.

Lemma main_context_failed (w : World) :
  device_found w = true -> st_CreateContext w < 0 ->
  main w =
    ((trace_context w ++ [printf "%s" [arg_str "create context failed"]])%list,
     halted (exited 1)).
Proof.
  intros Hd Hc%ltb_true_iff.
  pose proof (init_device_found w Hd) as Hdev.
  open_main w Hdev. run. finish_main.
Qed.

(** [main] stops where [build_program] stops. *)
Lemma main_build_program_halted (w : World) (t : list event) (h : halt) :
  device_found w = true -> 0 <= st_CreateContext w ->
  build_program w (live obj_context) (live obj_device) PROGRAM_FILE = (t, halted h) ->
  main w = ((trace_context w ++ t)%list, halted h).
Proof.
  intros Hd Hc%ltb_false_iff Hb.
  pose proof (init_device_found w Hd) as Hdev.
  open_main w Hdev. run. finish_main.
Qed.

Lemma main_queue_failed (w : World) :
  device_found w = true -> 0 <= st_CreateContext w -> program_built w = true ->
  st_CreateCommandQueue w < 0 ->
  main w =
    ((trace_program w ++
      [clCreateCommandQueue (live obj_context) (live obj_device);
       printf "%s" [arg_str "create command queue failed"]])%list,
     halted (exited 1)).
Proof.
  intros Hd Hc%ltb_false_iff Hp Hq%ltb_true_iff.
  pose proof (init_device_found w Hd) as Hdev.
  pose proof (build_program_built w (live obj_context) (live obj_device)
                PROGRAM_FILE Hp) as Hprog.
  remember (fst (build_program w (live obj_context) (live obj_device) PROGRAM_FILE))
    as t_prog eqn:Et. 
  unfold trace_program. rewrite <- Et. clear Et.
  open_main w Hdev. run. finish_main.
Qed.

Lemma main_kernel_failed (w : World) :
  device_found w = true -> 0 <= st_CreateContext w -> program_built w = true ->
  0 <= st_CreateCommandQueue w -> st_CreateKernel w < 0 ->
  main w =
    ((trace_program w ++
      [clCreateCommandQueue (live obj_context) (live obj_device);
       clCreateKernel (live obj_program) KERNEL_FUNC;
       printf "%s" [arg_str "create kernel failed"]])%list,
     halted (exited 1)).
Proof.
  intros Hd Hc%ltb_false_iff Hp Hq%ltb_false_iff Hk%ltb_true_iff.
  pose proof (init_device_found w Hd) as Hdev.
  pose proof (build_program_built w (live obj_context) (live obj_device)
                PROGRAM_FILE Hp) as Hprog.
  remember (fst (build_program w (live obj_context) (live obj_device) PROGRAM_FILE))
    as t_prog eqn:Et.
  unfold trace_program. rewrite <- Et. clear Et.
  open_main w Hdev. run. finish_main.
Qed.

Lemma main_buffer_failed (w : World) :
  device_found w = true -> 0 <= st_CreateContext w -> program_built w = true ->
  0 <= st_CreateCommandQueue w -> 0 <= st_CreateKernel w ->
  st_CreateBuffer w output_data < 0 ->
  main w =
    ((trace_program w ++
      [clCreateCommandQueue (live obj_context) (live obj_device);
       clCreateKernel (live obj_program) KERNEL_FUNC] ++ trace_buffers ++
      [printf "%s" [arg_str "create buffer failed"]])%list,
     halted (exited 1)).
Proof.
  intros Hd Hc%ltb_false_iff Hp Hq%ltb_false_iff Hk%ltb_false_iff Hb%ltb_true_iff.
  pose proof (init_device_found w Hd) as Hdev.
  pose proof (build_program_built w (live obj_context) (live obj_device)
                PROGRAM_FILE Hp) as Hprog.
  remember (fst (build_program w (live obj_context) (live obj_device) PROGRAM_FILE))
    as t_prog eqn:Et.
  unfold trace_program. rewrite <- Et. clear Et.
  open_main w Hdev. run. finish_main.
Qed.

(** ** The errors of [build_program] *)

Lemma build_program_create_failed (w : World) (ctx device_id : handle)
    (filename text : string) :
  0 <= uninit_status w -> program_file w = Some text ->
  st_CreateProgramWithSource w < 0 ->
  build_program w ctx device_id filename =
    ([fopen filename; fseek; ftell; rewind; fread; fclose;
      clCreateProgramWithSource ctx text;
      printf "%s" [arg_str "create program failed"]],
     halted (exited 1)).
Proof.
  intros Hu%ltb_false_iff Hf Hc%ltb_true_iff.
  unfold build_program, check_status, created. run. reflexivity.
Qed.

Lemma build_program_compile_error (w : World) (ctx device_id : handle)
    (filename text : string) :
  0 <= uninit_status w -> program_file w = Some text ->
  0 <= st_CreateProgramWithSource w -> st_BuildProgram w < 0 ->
  build_program w ctx device_id filename =
    ([fopen filename; fseek; ftell; rewind; fread; fclose;
      clCreateProgramWithSource ctx text; clBuildProgram (live obj_program);
      clGetProgramBuildInfo (live obj_program) device_id;
      clGetProgramBuildInfo (live obj_program) device_id;
      printf ("%s" ++ newline) [arg_str (build_log w)]],
     halted (exited 1)).
Proof.
  intros Hu%ltb_false_iff Hf Hc%ltb_false_iff Hb%ltb_true_iff.
  unfold build_program, check_status, created. run. reflexivity.
Qed.

(** ** Every run, case by case *)

Lemma released_app (t1 t2 : list event) :
  released (t1 ++ t2) = (released t1 ++ released t2)%list.
Proof. unfold released. apply flat_map_app. Qed.

Lemma init_device_no_release (w : World) : released (fst (init_device w)) = [].
Proof.
  unfold init_device.
  destruct (st_GetPlatformIDs w <? 0) eqn:Hp; run; [reflexivity|].
  destruct (st_GetDeviceIDs_gpu w =? CL_DEVICE_NOT_FOUND) eqn:Hg; run.
  - destruct (st_GetDeviceIDs_cpu w <? 0) eqn:Hc; run; reflexivity.
  - destruct (st_GetDeviceIDs_gpu w <? 0) eqn:Hc; run; reflexivity.
Qed.

Lemma build_program_no_release (w : World) (ctx dev : handle) (f : string) :
  released (fst (build_program w ctx dev f)) = [].
Proof.
  unfold build_program, check_status.
  destruct (uninit_status w <? 0) eqn:Hu; run; [reflexivity|].
  destruct (program_file w) as [text|] eqn:Hf; run; [|reflexivity].
  destruct (st_CreateProgramWithSource w <? 0) eqn:Hc; run; [reflexivity|].
  destruct (st_BuildProgram w <? 0) eqn:Hb; run; reflexivity.
Qed.

Lemma trace_context_no_release (w : World) : released (trace_context w) = [].
Proof.
  unfold trace_context. rewrite !released_app, init_device_no_release.
  reflexivity.
Qed.

Lemma trace_program_no_release (w : World) : released (trace_program w) = [].
Proof.
  unfold trace_program.
  rewrite released_app, trace_context_no_release, build_program_no_release.
  reflexivity.
Qed.

Lemma trace_staged_no_release (w : World) : released (trace_staged w) = [].
Proof.
  unfold trace_staged.
  rewrite !released_app, init_device_no_release, build_program_no_release.
  reflexivity.
Qed.

Lemma trace_before_verify_no_release (w : World) :
  released (trace_before_verify w) = [].
Proof.
  unfold trace_before_verify.
  rewrite !released_app, trace_staged_no_release. reflexivity.
Qed.

Lemma device_found_intro (w : World) :
  0 <= st_GetPlatformIDs w ->
  0 <= (if st_GetDeviceIDs_gpu w =? CL_DEVICE_NOT_FOUND
        then st_GetDeviceIDs_cpu w else st_GetDeviceIDs_gpu w) ->
  device_found w = true.
Proof.
  intros Hp Hd. unfold device_found. now rewrite !nonneg_of_le.
Qed.

Lemma main_null_stream (w : World) :
  null_stream_reached w ->
  main w = ((trace_context w ++ [fopen PROGRAM_FILE])%list,
            halted undefined_behaviour).
Proof.
  intros (Hd & Hc & Hu & Hf).
  eapply main_build_program_halted; [exact Hd|exact Hc|].
  apply build_program_null_stream; assumption.
Qed.

Ltac no_release :=
  cbn [fst];
  rewrite ?released_app, ?trace_context_no_release, ?trace_program_no_release,
    ?trace_staged_no_release, ?trace_before_verify_no_release;
  reflexivity.

(** The three ways a run can end: the process exits with status 1, and
    then nothing was released; or the NULL stream reaches [fseek]; or
    [main] returns 0 after ["ALL PASSED"] and the destructor. *)
Lemma main_cases (w : World) :
  (exists t, main w = (t, halted (exited 1)) /\ released t = []) \/
  (null_stream_reached w /\
   main w = ((trace_context w ++ [fopen PROGRAM_FILE])%list,
             halted undefined_behaviour)) \/
  (read_back w = true /\ all_within_tolerance w /\
   main w =
     ((trace_before_verify w ++ [printf "ALL PASSED" []] ++ trace_release w)%list,
      done 0)).
Proof.
  (* the platform *)
  destruct (Z.lt_ge_cases (st_GetPlatformIDs w) 0) as [Hp|Hp].
  { left. eexists. split;
      [apply main_init_device_halted, init_device_no_platform; exact Hp
      |reflexivity]. }
  (* the device *)
  assert (Hdev : (exists t, main w = (t, halted (exited 1)) /\ released t = []) \/
                 device_found w = true).
  { destruct (Z.eq_dec (st_GetDeviceIDs_gpu w) CL_DEVICE_NOT_FOUND) as [Hg|Hg].
    - destruct (Z.lt_ge_cases (st_GetDeviceIDs_cpu w) 0) as [Hc|Hc].
      + left. eexists. split;
          [apply main_init_device_halted, init_device_cpu_error; assumption
          |reflexivity].
      + right. apply device_found_intro; [exact Hp|].
        apply Z.eqb_eq in Hg. rewrite Hg. exact Hc.
    - destruct (Z.lt_ge_cases (st_GetDeviceIDs_gpu w) 0) as [Hc|Hc].
      + left. eexists. split;
          [apply main_init_device_halted, init_device_gpu_error; assumption
          |reflexivity].
      + right. apply device_found_intro; [exact Hp|].
        apply Z.eqb_neq in Hg. rewrite Hg. exact Hc. }
  destruct Hdev as [Hfail|Hd]; [left; exact Hfail|].
  (* the context *)
  destruct (Z.lt_ge_cases (st_CreateContext w) 0) as [Hc|Hc].
  { left. eexists. split; [apply (main_context_failed w Hd Hc)|no_release]. }
  (* the program *)
  destruct (Z.lt_ge_cases (uninit_status w) 0) as [Hu|Hu].
  { left. eexists. split;
      [eapply main_build_program_halted;
         [exact Hd|exact Hc|apply build_program_status_negative; exact Hu]
      |no_release]. }
  destruct (program_file w) as [text|] eqn:Hf.
  2:{ right. left. assert (Hn : null_stream_reached w) by (repeat split; assumption).
      split; [exact Hn|apply (main_null_stream w Hn)]. }
  destruct (Z.lt_ge_cases (st_CreateProgramWithSource w) 0) as [Hs|Hs].
  { left. eexists. split;
      [eapply main_build_program_halted;
         [exact Hd|exact Hc
         |apply (build_program_create_failed w _ _ _ text); assumption]
      |no_release]. }
  destruct (Z.lt_ge_cases (st_BuildProgram w) 0) as [Hb|Hb].
  { left. eexists. split;
      [eapply main_build_program_halted;
         [exact Hd|exact Hc
         |apply (build_program_compile_error w _ _ _ text); assumption]
      |no_release]. }
  assert (Hprog : program_built w = true).
  { unfold program_built. now rewrite Hf, !nonneg_of_le. }
  (* the queue, the kernel, the buffers *)
  destruct (Z.lt_ge_cases (st_CreateCommandQueue w) 0) as [Hq|Hq].
  { left. eexists. split; [apply (main_queue_failed w Hd Hc Hprog Hq)|no_release]. }
  destruct (Z.lt_ge_cases (st_CreateKernel w) 0) as [Hk|Hk].
  { left. eexists. split;
      [apply (main_kernel_failed w Hd Hc Hprog Hq Hk)|no_release]. }
  destruct (Z.lt_ge_cases (st_CreateBuffer w output_data) 0) as [Ho|Ho].
  { left. eexists. split;
      [apply (main_buffer_failed w Hd Hc Hprog Hq Hk Ho)|no_release]. }
  assert (Hst : staged w = true).
  { unfold staged. now rewrite Hd, Hprog, !nonneg_of_le. }
  (* the binds, the dispatch, the read-back *)
  destruct (Z.lt_ge_cases (bind_status w) 0) as [Ha|Ha].
  { left. eexists. split; [apply (main_bind_failed w Hst Ha)|no_release]. }
  assert (Hbd : bound w = true)
    by (unfold bound; now rewrite Hst, nonneg_of_le).
  destruct (Z.lt_ge_cases (st_EnqueueNDRangeKernel w) 0) as [He|He].
  { left. eexists. split; [apply (main_dispatch_failed w Hbd He)|no_release]. }
  assert (Hdp : dispatched w = true)
    by (unfold dispatched; now rewrite Hbd, nonneg_of_le).
  destruct (Z.lt_ge_cases (st_EnqueueReadBuffer w) 0) as [Hr|Hr].
  { left. eexists. split; [apply (main_read_failed w Hdp Hr)|no_release]. }
  assert (Hrb : read_back w = true)
    by (unfold read_back; now rewrite Hdp, nonneg_of_le).
  (* the verification *)
  destruct (first_mismatch_or_none
              (fun i => mismatch (expected w i) (readback w i))
              (Z.to_nat ARRAY_SIZE) 0) as [(i0 & Hi & Hbad & Hgood)|Hnone].
  - apply range_of_size in Hi. left. eexists. split;
      [apply (main_first_mismatch w i0 Hrb Hi Hbad Hgood)|no_release].
  - right. right.
    assert (Hall : all_within_tolerance w)
      by (intros j Hj; apply Hnone, range_of_size, Hj).
    split; [exact Hrb|]. split; [exact Hall|].
    apply (main_all_pass w Hrb Hall).
Qed.

(** ** Fatal errors before the dispatch *)

(** X1.  When [clGetPlatformIDs] reports a negative status, the process
    prints ["could not get a platform"] and exits with status 1; no device
    is queried and nothing else is called. *)
Theorem platform_failure_is_fatal (w : World) :
  st_GetPlatformIDs w < 0 ->
  main w =
    ([gettimeofday; clGetPlatformIDs; printf "could not get a platform" []],
     halted (exited 1)).
Proof.
  intros Hp. apply main_init_device_halted, init_device_no_platform. exact Hp.
Qed.

Lemma platform_failure_is_fatal_witness :
  st_GetPlatformIDs world_no_platform < 0 /\
  main world_no_platform =
    ([gettimeofday; clGetPlatformIDs; printf "could not get a platform" []],
     halted (exited 1)).
Proof.
  split; [reflexivity|]. apply (platform_failure_is_fatal world_no_platform).
  reflexivity.
Defined.

(** X2.  Once a device is selected, each creation whose status [main]
    tests is fatal at once when that status is negative: the context, and
    after a successful build the command queue, the kernel, and the output
    buffer (the third [clCreateBuffer]).  The process prints the message of
    that step and exits with status 1, and the next OpenCL call is not
    made.  A failed kernel creation and a failed argument binding (C7)
    print the same message, ["create kernel failed"]. *)
Theorem creation_failures_are_fatal (w : World) :
  device_found w = true ->
  (st_CreateContext w < 0 ->
   main w =
     (([gettimeofday] ++ fst (init_device w) ++
       [clCreateContext (live obj_device);
        printf "%s" [arg_str "create context failed"]])%list,
      halted (exited 1))) /\
  (0 <= st_CreateContext w -> program_built w = true ->
   (st_CreateCommandQueue w < 0 ->
    main w =
      ((trace_program w ++
        [clCreateCommandQueue (live obj_context) (live obj_device);
         printf "%s" [arg_str "create command queue failed"]])%list,
       halted (exited 1))) /\
   (0 <= st_CreateCommandQueue w -> st_CreateKernel w < 0 ->
    main w =
      ((trace_program w ++
        [clCreateCommandQueue (live obj_context) (live obj_device);
         clCreateKernel (live obj_program) KERNEL_FUNC;
         printf "%s" [arg_str "create kernel failed"]])%list,
       halted (exited 1))) /\
   (0 <= st_CreateCommandQueue w -> 0 <= st_CreateKernel w ->
    st_CreateBuffer w output_data < 0 ->
    main w =
      ((trace_program w ++
        [clCreateCommandQueue (live obj_context) (live obj_device);
         clCreateKernel (live obj_program) KERNEL_FUNC;
         clCreateBuffer (live obj_context)
           [CL_MEM_READ_ONLY; CL_MEM_COPY_HOST_PTR] input_data;
         clCreateBuffer (live obj_context)
           [CL_MEM_READ_ONLY; CL_MEM_COPY_HOST_PTR] bias_data;
         clCreateBuffer (live obj_context)
           [CL_MEM_READ_ONLY; CL_MEM_COPY_HOST_PTR] output_data;
         printf "%s" [arg_str "create buffer failed"]])%list,
       halted (exited 1)))).
Proof.
  intros Hd. split.
  - intros Hc. rewrite (main_context_failed w Hd Hc). unfold trace_context.
    rewrite <- !app_assoc. reflexivity.
  - intros Hc Hp. split; [|split].
    + apply (main_queue_failed w Hd Hc Hp).
    + apply (main_kernel_failed w Hd Hc Hp).
    + intros Hq Hk Hb. apply (main_buffer_failed w Hd Hc Hp Hq Hk Hb).
Qed.

Lemma creation_failures_are_fatal_witness :
  device_found world_no_context = true /\
  main world_no_context =
    ([gettimeofday; clGetPlatformIDs; clGetDeviceIDs CL_DEVICE_TYPE_GPU;
      clCreateContext (live obj_device);
      printf "%s" [arg_str "create context failed"]],
     halted (exited 1)).
Proof.
  split; [reflexivity|].
  apply (creation_failures_are_fatal world_no_context); reflexivity.
Defined.

(** X3.  When the kernel source was read (and the uninitialised [status]
    let the run through), [build_program] hands the whole text of the file
    to [clCreateProgramWithSource].  A negative status of that call prints
    ["create program failed"]; a negative status of [clBuildProgram] makes
    the program query the build log twice (its size, then its text), print
    the log followed by a newline, and exit with status 1.  No queue, no
    kernel and no buffer is created in either case. *)
Theorem build_errors_are_fatal (w : World) (text : string) :
  device_found w = true -> 0 <= st_CreateContext w ->
  0 <= uninit_status w -> program_file w = Some text ->
  let read_source :=
    [fopen "add.cl"; fseek; ftell; rewind; fread; fclose;
     clCreateProgramWithSource (live obj_context) text] in
  (st_CreateProgramWithSource w < 0 ->
   main w =
     ((trace_context w ++ read_source ++
       [printf "%s" [arg_str "create program failed"]])%list,
      halted (exited 1))) /\
  (0 <= st_CreateProgramWithSource w -> st_BuildProgram w < 0 ->
   main w =
     ((trace_context w ++ read_source ++
       [clBuildProgram (live obj_program);
        clGetProgramBuildInfo (live obj_program) (live obj_device);
        clGetProgramBuildInfo (live obj_program) (live obj_device);
        printf ("%s" ++ newline) [arg_str (build_log w)]])%list,
      halted (exited 1))).
Proof.
  intros Hd Hc Hu Hf read_source. split.
  - intros Hs. eapply main_build_program_halted; [exact Hd|exact Hc|].
    apply (build_program_create_failed w _ _ _ text Hu Hf Hs).
  - intros Hs Hb. eapply main_build_program_halted; [exact Hd|exact Hc|].
    apply (build_program_compile_error w _ _ _ text Hu Hf Hs Hb).
Qed.

Lemma build_errors_are_fatal_witness :
  device_found world_compile_error = true /\
  0 <= st_CreateContext world_compile_error /\
  0 <= uninit_status world_compile_error /\
  program_file world_compile_error = Some add_cl /\
  existsb (fun e => match e with
                    | printf _ [arg_str log] =>
                        String.eqb log "add.cl:1: error: expected ';'"
                    | _ => false
                    end) (fst (main world_compile_error)) = true /\
  snd (main world_compile_error) = halted (exited 1).
Proof.
  assert (Hc : 0 <= st_CreateContext world_compile_error) by (cbn; lia).
  assert (Hu : 0 <= uninit_status world_compile_error) by (cbn; lia).
  assert (Hs : 0 <= st_CreateProgramWithSource world_compile_error) by (cbn; lia).
  split; [reflexivity|]. split; [exact Hc|]. split; [exact Hu|].
  split; [reflexivity|].
  destruct (build_errors_are_fatal world_compile_error add_cl
              eq_refl Hc Hu eq_refl) as [_ H].
  rewrite (H Hs eq_refl). split; reflexivity.
Defined.

(** X4.  When the blocking read-back reports a negative status, the
    process prints ["clEnqueueReadBuffer failed"] and exits with status 1
    right after the timestamps were reported: [clFinish] is not called and
    no result is compared. *)
Theorem readback_failure_is_fatal (w : World) :
  dispatched w = true -> st_EnqueueReadBuffer w < 0 ->
  main w =
    ((trace_staged w ++ trace_bind w ++ trace_dispatch ++ trace_timestamps ++
      [report_timestamps w;
       clEnqueueReadBuffer (live obj_queue) (live (obj_mem output_data)) output_data;
       printf "%s" [arg_str "clEnqueueReadBuffer failed"]])%list,
     halted (exited 1)).
Proof.
  intros Hd Hr. apply (main_read_failed w Hd Hr).
Qed.

Lemma readback_failure_is_fatal_witness :
  dispatched world_read_fails = true /\
  st_EnqueueReadBuffer world_read_fails < 0 /\
  snd (main world_read_fails) = halted (exited 1).
Proof.
  split; [reflexivity|]. split; [reflexivity|].
  rewrite (readback_failure_is_fatal world_read_fails eq_refl eq_refl).
  reflexivity.
Defined.


(** X6.  Resources are released only when [main] returns: a run that
    returns releases the kernel, the input buffer, the output buffer, the
    queue, the program and the context, in this order and nothing else; a
    run that ends in any other way ([exit(1)] from any check, or the NULL
    stream) releases nothing at all. *)
Theorem releases_only_on_return (w : World) :
  (snd (main w) = done 0 ->
   released (fst (main w)) =
     [live obj_kernel; input_buffer (runtime_staged w);
      live (obj_mem output_data); live obj_queue; live obj_program;
      live obj_context]) /\
  (snd (main w) <> done 0 -> released (fst (main w)) = []).
Proof.
  destruct (main_cases w) as [(t & Hm & Hrel)|[[Hn Hm]|(Hr & Hall & Hm)]];
    rewrite Hm; cbn [fst snd].
  - split; [discriminate|]. intros _. exact Hrel.
  - split; [discriminate|]. intros _.
    rewrite released_app, trace_context_no_release. reflexivity.
  - split; [|intros Hne; now elim Hne]. intros _.
    rewrite !released_app, trace_before_verify_no_release. reflexivity.
Qed.

(** X7.  The initialisation loop, run for [n] iterations from index [i],
    writes exactly the elements [i .. i+n-1]: there [input] holds
    [1.f * (float) j] and [bias] holds [10000.f], whatever the arrays held
    before; every other element of both arrays is left as it was. *)
Theorem init_loop_writes_exactly (n : nat) (i : Z) (input bias : array) (j : Z) :
  (i <= j < i + Z.of_nat n ->
   fst (init_loop n i input bias) j = F32.mul (F32.of_int 1) (F32.of_int j) /\
   snd (init_loop n i input bias) j = F32.of_int 10000) /\
  (~ i <= j < i + Z.of_nat n ->
   fst (init_loop n i input bias) j = input j /\
   snd (init_loop n i input bias) j = bias j).
Proof.
  destruct (init_loop_spec n i input bias j) as [-> ->].
  destruct (Z.leb_spec i j), (Z.ltb_spec j (i + Z.of_nat n)); cbn [andb];
    split; intros Hj; try lia; auto.
Qed.

(** ** Special values in the read-back *)

Lemma mismatch_nan (output : spec_float) : mismatch output S754_nan = false.
Proof. destruct output; reflexivity. Qed.

Lemma mismatch_infinity (s sy : bool) (m : positive) (e : Z) :
  mismatch (S754_finite s m e) (S754_infinity sy) = true.
Proof. reflexivity. Qed.

Lemma expected_value_finite (i : Z) :
  0 <= i < ARRAY_SIZE ->
  exists m e, expected_value i = S754_finite false m e /\ e <= 0.
Proof.
  intros Hi. destruct (expected_value_canonical i Hi) as (m & e & H & He & _).
  exists m, e. split; [exact H|lia].
Qed.

(** X8.  A NaN in the read-back is never reported, since the comparison
    [abs(...) > 1e5] is false on a NaN: a run whose read-back is NaN at
    every index prints ["ALL PASSED"] and returns 0. *)
Theorem nan_readback_passes (w : World) :
  read_back w = true ->
  (forall i, 0 <= i < ARRAY_SIZE -> readback w i = S754_nan) ->
  main w =
    ((trace_before_verify w ++ [printf "ALL PASSED" []] ++ trace_release w)%list,
     done 0).
Proof.
  intros Hr Hnan. apply (main_all_pass w Hr). intros i Hi.
  rewrite (Hnan i Hi). apply mismatch_nan.
Qed.

Lemma nan_readback_passes_witness :
  read_back world_nan = true /\ readback world_nan 0 = S754_nan /\
  snd (main world_nan) = done 0.
Proof.
  split; [reflexivity|]. split; [reflexivity|].
  rewrite (nan_readback_passes world_nan eq_refl); reflexivity.
Defined.

(** X9.  An infinite read-back (of either sign) is out of tolerance: if
    the element at [i0] is infinite and the elements before it are within
    the tolerance, the run reports index [i0] and exits with status 1. *)
Theorem infinite_readback_reported (w : World) (i0 : Z) (s : bool) :
  read_back w = true -> 0 <= i0 < ARRAY_SIZE ->
  readback w i0 = S754_infinity s ->
  (forall j, 0 <= j < i0 -> mismatch (expected w j) (readback w j) = false) ->
  main w =
    ((trace_before_verify w ++
      [diagnostic i0 (expected w i0) (S754_infinity s);
       printf "%s" [arg_str "CHECK RESULT FAILED"]])%list,
     halted (exited 1)).
Proof.
  intros Hr Hi Hinf Hgood.
  apply (main_first_mismatch_values w i0); try assumption; [reflexivity|].
  rewrite (expected_at w i0 Hi).
  destruct (expected_value_finite i0 Hi) as (m & e & -> & _).
  apply mismatch_infinity.
Qed.

Lemma world_infinity_readback (i : Z) :
  readback world_infinity i =
    if i =? 3 then S754_infinity false else expected_value i.
Proof. reflexivity. Qed.

Lemma infinite_readback_reported_witness :
  read_back world_infinity = true /\ 0 <= 3 < ARRAY_SIZE /\
  readback world_infinity 3 = S754_infinity false /\
  snd (main world_infinity) = halted (exited 1).
Proof.
  assert (Hi : 0 <= 3 < ARRAY_SIZE) by (unfold ARRAY_SIZE; lia).
  split; [reflexivity|]. split; [exact Hi|]. split; [reflexivity|].
  rewrite (infinite_readback_reported world_infinity 3 false eq_refl Hi eq_refl).
  - reflexivity.
  - intros j Hj.
    assert (Hr : 0 <= j < ARRAY_SIZE) by (unfold ARRAY_SIZE; lia).
    rewrite world_infinity_readback, (expected_at _ _ Hr).
    destruct (Z.eqb_spec j 3); [lia|]. apply (mismatch_expected_value j Hr).
Defined.

(** ** The tolerance in exact arithmetic *)

Lemma expected_value_exact (i : Z) :
  0 <= i < ARRAY_SIZE ->
  exists q, SF2Q (expected_value i) = Some q /\ (q == inject_Z (i + 10000))%Q.
Proof.
  intros Hi. destruct (data_exact i Hi) as (_ & _ & Hrep & _).
  unfold represents in Hrep.
  destruct (SF2Q (expected_value i)) as [q|]; [|discriminate].
  exists q. split; [reflexivity|]. apply Qeq_bool_iff. exact Hrep.
Qed.

(** The test at index [i] fires only on a read-back that is infinite or
    whose exact value is more than 100000 away from [i + 10000]. *)
Lemma mismatch_exceeds (i : Z) (actual : spec_float) :
  0 <= i < ARRAY_SIZE ->
  mismatch (expected_value i) actual = true ->
  match SF2Q actual with
  | Some q => (100000 < Qabs (inject_Z (i + 10000) - q))%Q
  | None => exists s, actual = S754_infinity s
  end.
Proof.
  intros Hi Hbad.
  destruct (expected_value_exact i Hi) as (qx & Hqx & Eqx).
  destruct (expected_value_finite i Hi) as (m & e & Hx & He).
  destruct actual as [sy|sy| |sy my ey]; cbn [SF2Q].
  - (* zero *)
    destruct (Z.le_gt_cases i 90000) as [Hle|Hgt].
    + destruct (data_exact i Hi) as (_ & _ & _ & _ & Hz).
      assert (Hsame : mismatch (expected_value i) (S754_zero sy) =
                      mismatch (expected_value i) (S754_zero false))
        by (rewrite Hx; destruct sy; reflexivity).
      rewrite Hsame, (Hz Hle) in Hbad. discriminate Hbad.
    + assert (E : (inject_Z (i + 10000) - 0 == inject_Z (i + 10000))%Q) by ring.
      rewrite E.
      change (Qabs (inject_Z (i + 10000))) with (inject_Z (Z.abs (i + 10000))).
      change 100000%Q with (inject_Z 100000). rewrite <- Zlt_Qlt. lia.
  - exists sy. reflexivity.
  - rewrite mismatch_nan in Hbad. discriminate Hbad.
  - rewrite Hx in Hbad, Hqx.
    destruct (mismatch_finite_exceeds false m e sy my ey He Hbad)
      as (qx' & qy & Hqx' & Hqy & Hlt).
    rewrite Hqx in Hqx'. injection Hqx' as <-.
    cbn [SF2Q] in Hqy. injection Hqy as <-.
    rewrite <- Eqx. exact Hlt.
Qed.

(** X10.  The tolerance in exact arithmetic.  If the test of the verifier
    holds at index [i] for a read-back value [actual], then [actual] is
    infinite, or it is a number whose exact value differs from the exact
    expected value [i + 10000] by more than 100000: the single-precision
    rounding of the difference never turns a difference of at most 100000
    into a reported mismatch. *)
Theorem mismatch_only_beyond_tolerance (w : World) (i : Z) (actual : spec_float) :
  0 <= i < ARRAY_SIZE ->
  mismatch (expected w i) actual = true ->
  match SF2Q actual with
  | Some q => (100000 < Qabs (inject_Z (i + 10000) - q))%Q
  | None => exists s, actual = S754_infinity s
  end.
Proof.
  intros Hi. rewrite (expected_at w i Hi). apply (mismatch_exceeds i actual Hi).
Qed.

Lemma mismatch_only_beyond_tolerance_witness :
  0 <= 0 < ARRAY_SIZE /\
  mismatch (expected world_ok 0) (F32.of_int 200000) = true /\
  (100000 < Qabs (inject_Z (0 + 10000) - inject_Z 200000))%Q.
Proof.
  assert (Hi : 0 <= 0 < ARRAY_SIZE) by (unfold ARRAY_SIZE; lia).
  assert (Hbad : mismatch (expected world_ok 0) (F32.of_int 200000) = true)
    by (rewrite (expected_at world_ok 0 Hi); reflexivity).
  split; [exact Hi|]. split; [exact Hbad|].
  pose proof (mismatch_only_beyond_tolerance world_ok 0 (F32.of_int 200000)
                Hi Hbad) as H.
  exact H.
Defined.

(** X11.  A run whose read-back is, at every index [i], a number within
    100000 of [i + 10000] in exact arithmetic prints ["ALL PASSED"] and
    returns 0, however wrong these numbers are. *)
Theorem within_tolerance_passes (w : World) :
  read_back w = true ->
  (forall i, 0 <= i < ARRAY_SIZE ->
     exists q, SF2Q (readback w i) = Some q /\
               (Qabs (inject_Z (i + 10000) - q) <= 100000)%Q) ->
  main w =
    ((trace_before_verify w ++ [printf "ALL PASSED" []] ++ trace_release w)%list,
     done 0).
Proof.
  intros Hr Hclose. apply (main_all_pass w Hr). intros i Hi.
  destruct (mismatch (expected w i) (readback w i)) eqn:Hbad; [|reflexivity].
  exfalso. rewrite (expected_at w i Hi) in Hbad.
  pose proof (mismatch_exceeds i (readback w i) Hi Hbad) as H.
  destruct (Hclose i Hi) as (q & Hq & Hle). rewrite Hq in H.
  apply (Qlt_not_le _ _ H Hle).
Qed.

Lemma world_zeros_close (i : Z) :
  0 <= i < ARRAY_SIZE ->
  exists q, SF2Q (readback world_zeros i) = Some q /\
            (Qabs (inject_Z (i + 10000) - q) <= 100000)%Q.
Proof.
  intros Hi. rewrite (world_zeros_readback i Hi). unfold zeros_up_to.
  destruct (Z.leb_spec i 90000) as [Hle|Hgt].
  - exists 0%Q. split; [reflexivity|].
    assert (E : (inject_Z (i + 10000) - 0 == inject_Z (i + 10000))%Q) by ring.
    rewrite E.
    change (Qabs (inject_Z (i + 10000))) with (inject_Z (Z.abs (i + 10000))).
    change 100000%Q with (inject_Z 100000). rewrite <- Zle_Qle. lia.
  - destruct (expected_value_exact i Hi) as (q & Hq & Eq).
    exists q. split; [exact Hq|]. rewrite Eq.
    assert (E : (inject_Z (i + 10000) - inject_Z (i + 10000) == 0)%Q) by ring.
    rewrite E. discriminate.
Qed.

Lemma within_tolerance_passes_witness :
  read_back world_zeros = true /\
  snd (main world_zeros) = done 0.
Proof.
  split; [reflexivity|].
  rewrite (within_tolerance_passes world_zeros eq_refl world_zeros_close).
  reflexivity.
Defined.

(** ** The buffers *)

Lemma buffers_created_app (t1 t2 : list event) :
  buffers_created (t1 ++ t2) = (buffers_created t1 ++ buffers_created t2)%list.
Proof. unfold buffers_created. apply flat_map_app. Qed.

Lemma init_device_no_buffer (w : World) : buffers_created (fst (init_device w)) = [].
Proof.
  unfold init_device.
  destruct (st_GetPlatformIDs w <? 0) eqn:Hp; run; [reflexivity|].
  destruct (st_GetDeviceIDs_gpu w =? CL_DEVICE_NOT_FOUND) eqn:Hg; run.
  - destruct (st_GetDeviceIDs_cpu w <? 0) eqn:Hc; run; reflexivity.
  - destruct (st_GetDeviceIDs_gpu w <? 0) eqn:Hc; run; reflexivity.
Qed.

Lemma build_program_no_buffer (w : World) (ctx dev : handle) (f : string) :
  buffers_created (fst (build_program w ctx dev f)) = [].
Proof.
  unfold build_program, check_status.
  destruct (uninit_status w <? 0) eqn:Hu; run; [reflexivity|].
  destruct (program_file w) as [text|] eqn:Hf; run; [|reflexivity].
  destruct (st_CreateProgramWithSource w <? 0) eqn:Hc; run; [reflexivity|].
  destruct (st_BuildProgram w <? 0) eqn:Hb; run; reflexivity.
Qed.

Lemma trace_staged_buffers (w : World) :
  buffers_created (trace_staged w) =
    [([CL_MEM_READ_ONLY; CL_MEM_COPY_HOST_PTR], input_data);
     ([CL_MEM_READ_ONLY; CL_MEM_COPY_HOST_PTR], bias_data);
     ([CL_MEM_READ_ONLY; CL_MEM_COPY_HOST_PTR], output_data)].
Proof.
  unfold trace_staged.
  rewrite !buffers_created_app, init_device_no_buffer, build_program_no_buffer.
  reflexivity.
Qed.

Ltac only_staged_buffers :=
  cbn [fst]; unfold trace_before_verify;
  rewrite !buffers_created_app, trace_staged_buffers; reflexivity.

(** X12.  A run that stages its buffers creates exactly three buffers, for
    the host arrays input, bias and output in this order, and all three
    with the flags [CL_MEM_READ_ONLY | CL_MEM_COPY_HOST_PTR]: the output
    buffer, which the kernel is to write, is requested read-only as well. *)
Theorem buffers_created_alike (w : World) :
  staged w = true ->
  buffers_created (fst (main w)) =
    [([CL_MEM_READ_ONLY; CL_MEM_COPY_HOST_PTR], input_data);
     ([CL_MEM_READ_ONLY; CL_MEM_COPY_HOST_PTR], bias_data);
     ([CL_MEM_READ_ONLY; CL_MEM_COPY_HOST_PTR], output_data)].
Proof.
  intros Hst.
  destruct (Z.lt_ge_cases (bind_status w) 0) as [Ha|Ha].
  { rewrite (main_bind_failed w Hst Ha). only_staged_buffers. }
  assert (Hbd : bound w = true)
    by (unfold bound; now rewrite Hst, nonneg_of_le).
  destruct (Z.lt_ge_cases (st_EnqueueNDRangeKernel w) 0) as [He|He].
  { rewrite (main_dispatch_failed w Hbd He). only_staged_buffers. }
  assert (Hdp : dispatched w = true)
    by (unfold dispatched; now rewrite Hbd, nonneg_of_le).
  destruct (Z.lt_ge_cases (st_EnqueueReadBuffer w) 0) as [Hr|Hr].
  { rewrite (main_read_failed w Hdp Hr). only_staged_buffers. }
  assert (Hrb : read_back w = true)
    by (unfold read_back; now rewrite Hdp, nonneg_of_le).
  destruct (first_mismatch_or_none
              (fun i => mismatch (expected w i) (readback w i))
              (Z.to_nat ARRAY_SIZE) 0) as [(i0 & Hi & Hbad & Hgood)|Hnone].
  - apply range_of_size in Hi.
    rewrite (main_first_mismatch w i0 Hrb Hi Hbad Hgood). only_staged_buffers.
  - rewrite (main_all_pass w Hrb)
      by (intros j Hj; apply Hnone, range_of_size, Hj).
    only_staged_buffers.
Qed.

Lemma buffers_created_alike_witness :
  staged world_ok = true /\
  In ([CL_MEM_READ_ONLY; CL_MEM_COPY_HOST_PTR], output_data)
     (buffers_created (fst (main world_ok))).
Proof.
  split; [reflexivity|].
  rewrite (buffers_created_alike world_ok eq_refl). cbn [In]. tauto.
Defined.

(** ** The reported kernel cost *)

(** Rounding a value that is a canonical mantissa of [prec] bits, shifted
    left by [k] bits, gives the mantissa back. *)
Lemma binary_round_aux_exact (prec emax : Z) (s : bool) (m : positive)
    (e k M E : Z) :
  Zpos (digits2_pos m) = prec ->
  emin prec emax <= e <= emax - prec -> 0 <= k ->
  M = Zpos m * 2 ^ k -> E = e - k ->
  binary_round_aux prec emax s M E loc_Exact = S754_finite s m e.
Proof.
  intros Hd He Hk -> ->.
  assert (Hdig : Zdigits2 (Zpos m * 2 ^ k) = prec + k).
  { destruct k as [|p|p]; [| |lia].
    - rewrite Z.pow_0_r, Z.mul_1_r. cbn [Zdigits2]. lia.
    - rewrite <- shift_left_value. cbn [Zdigits2].
      rewrite shift_left_digits, Pos2Z.inj_add. lia. }
  assert (Hpk : 0 < 2 ^ k) by (apply Z.pow_pos_nonneg; lia).
  unfold binary_round_aux.
  unfold shr_fexp at 1. rewrite Hdig.
  replace (fexp prec emax (prec + k + (e - k)) - (e - k)) with k
    by (unfold fexp, emin in *; lia).
  destruct (shr_exact_shifted (Zpos m * 2 ^ k) (e - k) k ltac:(lia))
    as [[Hq Hbits] He'].
  destruct (shr (shr_record_of_loc (Zpos m * 2 ^ k) loc_Exact) (e - k) k)
    as [mrs' e'].
  cbn [fst snd] in Hq, Hbits, He'. rewrite Z.max_r in * by lia.
  rewrite Z.div_mul in Hq by lia.
  assert (Hne : 2 ^ k <> 0) by lia.
  destruct (Hbits (Z.mod_mul (Zpos m) (2 ^ k) Hne)) as [Hr Hs].
  rewrite (loc_exact_of_bits mrs' Hr Hs), Hq. cbn [round_nearest_even].
  unfold shr_fexp. cbn [Zdigits2]. rewrite Hd.
  replace (fexp prec emax (prec + e') - e') with 0
    by (unfold fexp, emin in *; lia).
  cbn [shr shr_m shr_record_of_loc].
  replace (e' <=? emax - prec) with true by (symmetry; apply Z.leb_le; lia).
  f_equal. lia.
Qed.

(** The conversion of an integer below [2^53] to [double] is exact: the
    mantissa is the integer, shifted to 53 bits. *)
Lemma of_int_exact (z : Z) :
  0 < z < 2 ^ 53 ->
  exists (m : positive) (e : Z),
    F64.of_int z = S754_finite false m e /\
    Zpos (digits2_pos m) = 53 /\ -52 <= e <= 0 /\ Zpos m = z * 2 ^ (- e).
Proof.
  intros Hz. destruct z as [|p|p]; try lia.
  pose proof (digits2_pos_bounds p) as [Hlo _].
  assert (Hd : Zpos (digits2_pos p) <= 53).
  { assert (Hlt : 2 ^ (Zpos (digits2_pos p) - 1) < 2 ^ 53) by lia.
    apply Z.pow_lt_mono_r_iff in Hlt; lia. }
  unfold F64.of_int. cbn [binary_normalize].
  unfold binary_round, shl_align, fexp, emin, F64.prec, F64.emax.
  replace (Z.max (Zpos (digits2_pos p) + 0 - 53) (3 - 1024 - 53) - 0)
    with (Zpos (digits2_pos p) - 53) by lia.
  destruct (Zpos (digits2_pos p) - 53) as [|k|k] eqn:Ek; try lia.
  - exists p, 0. split; [|split; [lia|split; [lia|cbn; lia]]].
    replace (Z.max (Zpos (digits2_pos p) + 0 - 53) (3 - 1024 - 53)) with 0 by lia.
    apply (binary_round_aux_exact 53 1024 false p 0 0); unfold emin; try lia.
  - exists (Pos.iter xO p k), (Zneg k).
    split; [|split; [|split; [lia|]]].
    + replace (Z.max (Zpos (digits2_pos p) + 0 - 53) (3 - 1024 - 53))
        with (Zneg k) by lia.
      apply (binary_round_aux_exact 53 1024 false (Pos.iter xO p k) (Zneg k) 0);
        unfold emin; try lia.
      rewrite shift_left_digits, Pos2Z.inj_add. lia.
    + rewrite shift_left_digits, Pos2Z.inj_add. lia.
    + rewrite shift_left_value. reflexivity.
Qed.

Lemma F64_one : F64.of_int 1 = S754_finite false 4503599627370496 (-52).
Proof. reflexivity. Qed.

(** The product of a canonical [double] with [1e-0] is the [double]. *)
Lemma mul_one_exact (m : positive) (e : Z) :
  Zpos (digits2_pos m) = 53 -> -1022 <= e <= 971 ->
  F64.mul (S754_finite false m e) (F64.of_int 1) = S754_finite false m e.
Proof.
  intros Hd He. rewrite F64_one. unfold F64.mul, SFmul. cbn [xorb].
  apply (binary_round_aux_exact 53 1024 false m e 52); unfold emin; try lia.
Qed.

(** The [double] that is printed for a difference of timestamps below
    [2^53] is that difference. *)
Lemma cost_exact (d : Z) :
  0 <= d < 2 ^ 53 ->
  represents (F64.mul (F64.of_int d) (F64.of_int 1)) d = true.
Proof.
  intros Hd. destruct (Z.eq_dec d 0) as [->|Hnz]; [reflexivity|].
  destruct (of_int_exact d ltac:(lia)) as (m & e & -> & Hdig & He & Hm).
  rewrite (mul_one_exact m e Hdig ltac:(lia)).
  unfold represents.
  destruct (SF2Q_scaled false m e e ltac:(lia) ltac:(lia)) as (q & -> & Hq).
  apply Qeq_bool_iff.
  rewrite Z.sub_diag, Z.pow_0_r, Z.mul_1_r in Hq. cbn [cond_Zopp] in Hq.
  rewrite Hm in Hq.
  assert (Hp : 0 < 2 ^ (- e)) by (apply Z.pow_pos_nonneg; lia).
  unfold Qeq in *. cbn [Qnum Qden Qmult inject_Z] in *.
  rewrite ?Pos.mul_1_r, ?Z.mul_1_r in *. nia.
Qed.

Lemma binary_round_aux_sign (prec emax M E : Z) :
  0 <= M -> sign_clear (binary_round_aux prec emax false M E loc_Exact) = true.
Proof.
  intros HM. unfold binary_round_aux.
  unfold shr_fexp at 1.
  remember (fexp prec emax (Zdigits2 M + E) - E) as n eqn:En.
  destruct (shr_exact_shifted M E n HM) as [[Hq _] _].
  destruct (shr (shr_record_of_loc M loc_Exact) E n) as [mrs' e'].
  cbn [fst] in Hq.
  pose proof (round_nearest_even_bounds (shr_m mrs') (loc_of_shr_record mrs'))
    as Hrne.
  remember (round_nearest_even (shr_m mrs') (loc_of_shr_record mrs')) as m2 eqn:Em2.
  assert (Hm2 : 0 <= m2).
  { assert (0 <= shr_m mrs'); [|lia].
    rewrite Hq. apply Z.div_pos; [lia|]. apply Z.pow_pos_nonneg; lia. }
  clear Em2 Hrne Hq.
  unfold shr_fexp.
  remember (fexp prec emax (Zdigits2 m2 + e') - e') as n2 eqn:En2.
  destruct (shr_exact_shifted m2 e' n2 Hm2) as [[Hq2 _] _].
  destruct (shr (shr_record_of_loc m2 loc_Exact) e' n2) as [mrs'' e''].
  cbn [fst] in Hq2.
  assert (H : 0 <= shr_m mrs'').
  { rewrite Hq2. apply Z.div_pos; [lia|]. apply Z.pow_pos_nonneg; lia. }
  destruct (shr_m mrs'') as [|p|p]; [reflexivity| |lia].
  destruct (e'' <=? emax - prec); reflexivity.
Qed.

(** The printed cost is a number without a sign, whatever the difference
    of the timestamps is. *)
Lemma cost_sign (d : Z) :
  0 <= d -> sign_clear (F64.mul (F64.of_int d) (F64.of_int 1)) = true.
Proof.
  intros Hd. rewrite F64_one. destruct d as [|p|p]; [reflexivity| |lia].
  unfold F64.of_int. cbn [binary_normalize]. unfold binary_round.
  destruct (shl_align p 0 _) as [mz ez].
  pose proof (binary_round_aux_sign F64.prec F64.emax (Zpos mz) ez ltac:(lia)) as H.
  destruct (binary_round_aux F64.prec F64.emax false (Zpos mz) ez loc_Exact)
    as [s|s| |s m e]; cbn [sign_clear] in H; try discriminate H;
    destruct s; try discriminate H; unfold F64.mul, SFmul; cbn [xorb sign_clear negb].
  - reflexivity.
  - reflexivity.
  - apply binary_round_aux_sign. lia.
Qed.

(** A run that dispatched its kernel reports the timestamps. *)
Lemma main_reports_timestamps (w : World) :
  dispatched w = true -> In (report_timestamps w) (fst (main w)).
Proof.
  intros H.
  destruct (Z.lt_ge_cases (st_EnqueueReadBuffer w) 0) as [Hr|Hr].
  - rewrite (main_read_failed w H Hr). cbn [fst].
    rewrite !in_app_iff. do 4 right. left. left. reflexivity.
  - assert (Hrb : read_back w = true)
      by (unfold read_back; rewrite H; apply nonneg_of_le; exact Hr).
    rewrite (main_verify w Hrb), fst_log. unfold trace_before_verify.
    rewrite !in_app_iff. left. do 4 right. left. left. reflexivity.
Qed.

(** X13.  A run that dispatched its kernel prints the four timestamps
    under the labels queued, start, submit and end, and the cost of the
    kernel as a [double].  The cost is never negative and never a NaN; when
    the device reports [START <= END] and the two are less than [2^53] ns
    apart, the printed cost is exactly [END - START]. *)
Theorem kernel_cost_reported (w : World) :
  let t_queued := profiling w CL_PROFILING_COMMAND_QUEUED in
  let t_submit := profiling w CL_PROFILING_COMMAND_SUBMIT in
  let t_start := profiling w CL_PROFILING_COMMAND_START in
  let t_end := profiling w CL_PROFILING_COMMAND_END in
  dispatched w = true ->
  exists cost : spec_float,
    In (printf ("t_queued at %llu  " ++ newline ++
                "t_start at %llu  " ++ newline ++
                "t_submit at %llu  " ++ newline ++
                "t_end at %llu  " ++ newline ++
                "kernel execute cost %f ns " ++ newline)
          [arg_ulong t_queued; arg_ulong t_start; arg_ulong t_submit;
           arg_ulong t_end; arg_double cost])
       (fst (main w)) /\
    sign_clear cost = true /\
    (0 <= t_start <= t_end -> t_end < 2 ^ 64 -> t_end - t_start < 2 ^ 53 ->
     represents cost (t_end - t_start) = true).
Proof.
  intros t_queued t_submit t_start t_end Hd.
  exists (F64.mul (F64.of_int ((t_end - t_start) mod 2 ^ 64)) (F64.of_int 1)).
  split; [exact (main_reports_timestamps w Hd)|].
  assert (Hpos : 0 < 2 ^ 64) by reflexivity.
  split.
  - apply cost_sign. apply Z.mod_pos_bound. exact Hpos.
  - intros Ho He H53. rewrite Z.mod_small by lia. apply cost_exact. lia.
Qed.

Lemma kernel_cost_reported_witness :
  dispatched world_ok = true /\
  exists cost : spec_float,
    In (printf ("t_queued at %llu  " ++ newline ++
                "t_start at %llu  " ++ newline ++
                "t_submit at %llu  " ++ newline ++
                "t_end at %llu  " ++ newline ++
                "kernel execute cost %f ns " ++ newline)
          [arg_ulong 1000; arg_ulong 3000; arg_ulong 2000; arg_ulong 4000;
           arg_double cost])
       (fst (main world_ok)) /\
    represents cost 1000 = true.
Proof.
  split; [reflexivity|].
  destruct (kernel_cost_reported world_ok eq_refl) as (cost & Hin & _ & Hex).
  exists cost. split; [exact Hin|].
  apply Hex; cbn; lia.
Defined.
